(** * pyweather: a shallow embedding of [pyweather.py] and its properties

    The program parses a date or date range, performs one HTTP GET
    against the Visual Crossing timeline endpoint, maps condition texts
    to a symbol and prints a column-aligned table.

    Python values are modelled as follows.
    - A [str] is the list of its Unicode code points.
    - [print] calls, the HTTP call and the final table are recorded in a
      trace of events; [sys.exit] and uncaught exceptions end a run.
    - The Unicode database of CPython and the interval tables of the
      [wcwidth] package are data that the program does not define: they
      are the fields of the class [UnicodeData].
    - Library functions the program calls are written after their
      sources: [wcwidth] and [wcswidth] after wcwidth 0.7.0,
      [strptime] after [_strptime.py] of CPython 3.11, [response.json]
      after requests 2.27 and later, where a body that is not JSON
      raises a [RequestException].  [tabulate] is not modelled: the
      call that prints the grid is an event carrying its arguments. *)

From Stdlib Require Import ZArith String Ascii Lia Bool.
From stdpp Require Import base tactics option list.

Local Open Scope Z_scope.

#[local] Set Warnings "-register-all".
(** ** Python strings *)

Definition str := list Z.

(** An ASCII literal of the source as a Python string. *)
Definition py (s : string) : str :=
  map (fun a => Z.of_N (N_of_ascii a)) (list_ascii_of_string s).

Definition str_eqb (a b : str) : bool := bool_decide (a = b).

(** [" " * n]: a negative count gives the empty string. *)
Definition str_mul (s : str) (n : Z) : str :=
  concat (replicate (Z.to_nat n) s).

Definition len (s : str) : Z := Z.of_nat (length s).

(** [needle in hay] for strings: substring search. *)
Fixpoint startswith (hay prefix : str) : bool :=
  match prefix, hay with
  | [], _ => true
  | _ :: _, [] => false
  | p :: prefix', h :: hay' => (p =? h) && startswith hay' prefix'
  end.

Fixpoint str_in (needle hay : str) : bool :=
  startswith hay needle ||
  match hay with
  | [] => false
  | _ :: hay' => str_in needle hay'
  end.

(** [str.isascii() and str.isprintable()] on an ASCII string: the
    printable ASCII characters are U+0020 .. U+007E. *)
Definition isascii (s : str) : bool := forallb (fun c => c <? 128) s.
Definition ascii_printable (c : Z) : bool := (32 <=? c) && (c <? 127).

(** ASCII lowering, [Py_TOLOWER]. *)
Definition ascii_tolower (c : Z) : Z :=
  if (65 <=? c) && (c <=? 90) then c + 32 else c.

(** ** The Unicode data the program depends on *)

Class UnicodeData := {
  (** interval tables of the [wcwidth] package, as membership tests *)
  ZERO_WIDTH : Z -> bool;
  WIDE_EASTASIAN : Z -> bool;
  VS16_NARROW_TO_WIDE : Z -> bool;
  ISC_CONSONANT : Z -> bool;
  CATEGORY_MC : Z -> bool;
  EXTENDED_PICTOGRAPHIC : Z -> bool;
  (** CPython: [Py_UNICODE_TODECIMAL] of a non-ASCII code point *)
  unicode_todecimal : Z -> option Z;
  (** CPython: [do_lower], the lower-casing of a non-ASCII string *)
  unicode_lower : str -> str;
  (** CPython: [str.upper], [str.title] and [repr] of a string *)
  str_upper : str -> str;
  str_title : str -> str;
  str_repr : str -> str
}.

Definition in_range (lo hi c : Z) : bool := (lo <=? c) && (c <=? hi).

(** An instance for running the definitions: intervals copied from the
    tables of wcwidth (Unicode 17) around the characters the program
    prints, two blocks of non-ASCII decimal digits, and case mappings
    that change ASCII letters only. *)
Definition excerpt_tables : UnicodeData := {|
  ZERO_WIDTH c :=
    (c =? 0) || in_range 0x0300 0x036F c || in_range 0x093A 0x093C c
    || in_range 0x093E 0x094F c || in_range 0x200B 0x200F c
    || in_range 0xFE00 0xFE0F c;
  WIDE_EASTASIAN c :=
    in_range 0x26C4 0x26C5 c || in_range 0xFF01 0xFF60 c
    || in_range 0x1F1E6 0x1F202 c || in_range 0x1F300 0x1F320 c
    || in_range 0x1F32D 0x1F335 c || in_range 0x1F3F8 0x1F43E c
    || in_range 0x1F442 0x1F4FC c;
  VS16_NARROW_TO_WIDE c :=
    in_range 0x2600 0x2604 c || (c =? 0x26C8) || (c =? 0x2744)
    || (c =? 0x1F321) || in_range 0x1F324 0x1F32C c;
  ISC_CONSONANT c := in_range 0x0915 0x0939 c;
  CATEGORY_MC c :=
    (c =? 0x093B) || in_range 0x093E 0x0940 c || in_range 0x0949 0x094C c
    || in_range 0x094E 0x094F c;
  EXTENDED_PICTOGRAPHIC c :=
    (c =? 0xA9) || (c =? 0xAE) || in_range 0x2600 0x2604 c
    || in_range 0x26C4 0x26C5 c || (c =? 0x26C8)
    || in_range 0x1F266 0x1F321 c || in_range 0x1F324 0x1F393 c
    || in_range 0x1F400 0x1F4FD c;
  unicode_todecimal c :=
    if in_range 0x0660 0x0669 c then Some (c - 0x0660)
    else if in_range 0xFF10 0xFF19 c then Some (c - 0xFF10)
    else None;
  unicode_lower s := map ascii_tolower s;
  str_upper s :=
    map (fun c => if in_range 97 122 c then c - 32 else c) s;
  str_title s := s;
  str_repr s := py "'" ++ s ++ py "'"
|}.

Section Program.

Context `{UnicodeData}.

(** ** [wcwidth] (package wcwidth, [_wcwidth.py]) *)

Definition wcwidth (ucs : Z) : Z :=
  if (32 <=? ucs) && (ucs <? 0x7f) then 1
  else if (negb (ucs =? 0) && (ucs <? 32))
          || ((0x07F <=? ucs) && (ucs <? 0x0A0)) then -1
  else if ZERO_WIDTH ucs then 0
  else if WIDE_EASTASIAN ucs then 2
  else 1.

(** ** [wcswidth] (package wcwidth, [_wcswidth.py]) *)

Definition _REGIONAL_INDICATOR_SET (c : Z) : bool := in_range 0x1F1E6 0x1F1FF c.

Definition _EMOJI_ZWJ_SET (c : Z) : bool :=
  EXTENDED_PICTOGRAPHIC c || _REGIONAL_INDICATOR_SET c.

Definition _FITZPATRICK_RANGE (c : Z) : bool := in_range 0x1F3FB 0x1F3FF c.

Definition _ISC_VIRAMA_SET (c : Z) : bool :=
  existsb (Z.eqb c)
    [0x094D; 0x09CD; 0x0A4D; 0x0ACD; 0x0B4D; 0x0BCD; 0x0C4D; 0x0CCD;
     0x0D4D; 0x0DCA; 0x1B44; 0xA806; 0xA8C4; 0xA9C0; 0x11046; 0x110B9;
     0x111C0; 0x11235; 0x1134D; 0x11442; 0x114C2; 0x115BF; 0x1163F;
     0x116B6; 0x11839; 0x119E0; 0x11C3F].

(** The local variables of the measuring loop. *)
Record wstate := {
  total_width : Z;
  last_measured_idx : Z;
  last_measured_ucs : Z;
  last_was_virama : bool;
  conjunct_pending : bool
}.

Definition wstate_init : wstate :=
  {| total_width := 0; last_measured_idx := -2; last_measured_ucs := -1;
     last_was_virama := false; conjunct_pending := false |}.

Definition ord_at (pwcs : str) (i : Z) : Z := nth (Z.to_nat i) pwcs 0.

(** The inner [while j >= 0 and ord(pwcs[j]) in _REGIONAL_INDICATOR_SET]
    loop: the number of regional indicators just before position [idx]. *)
Fixpoint count_while (p : Z -> bool) (l : str) : Z :=
  match l with
  | c :: l' => if p c then 1 + count_while p l' else 0
  | [] => 0
  end.

Definition ri_before (pwcs : str) (idx : Z) : Z :=
  count_while _REGIONAL_INDICATOR_SET (rev (take (Z.to_nat idx) pwcs)).

(** The [while idx < end] loop; [rest] is [pwcs[idx:]]. *)
Fixpoint wcswidth_loop (pwcs rest : str) (idx : Z) (st : wstate) : Z :=
  match rest with
  | [] =>
      if conjunct_pending st then total_width st + 1 else total_width st
  | ucs :: rest1 =>
      if ucs =? 0x200D then
        if last_was_virama st then wcswidth_loop pwcs rest1 (idx + 1) st
        else
          match rest1 with
          | _ :: rest2 =>
              wcswidth_loop pwcs rest2 (idx + 2)
                {| total_width := total_width st;
                   last_measured_idx := last_measured_idx st;
                   last_measured_ucs := last_measured_ucs st;
                   last_was_virama := false;
                   conjunct_pending := conjunct_pending st |}
          | [] =>
              wcswidth_loop pwcs rest1 (idx + 1)
                {| total_width := total_width st;
                   last_measured_idx := last_measured_idx st;
                   last_measured_ucs := last_measured_ucs st;
                   last_was_virama := false;
                   conjunct_pending := conjunct_pending st |}
          end
      else if (ucs =? 0xFE0F) && (0 <=? last_measured_idx st) then
        wcswidth_loop pwcs rest1 (idx + 1)
          {| total_width :=
               total_width st +
               (if VS16_NARROW_TO_WIDE (ord_at pwcs (last_measured_idx st))
                then 1 else 0);
             last_measured_idx := -2;
             last_measured_ucs := last_measured_ucs st;
             last_was_virama := last_was_virama st;
             conjunct_pending := conjunct_pending st |}
      else if (0xFFFF <? ucs) && _REGIONAL_INDICATOR_SET ucs
              && Z.odd (ri_before pwcs idx) then
        wcswidth_loop pwcs rest1 (idx + 1)
          {| total_width := total_width st;
             last_measured_idx := last_measured_idx st;
             last_measured_ucs := ucs;
             last_was_virama := last_was_virama st;
             conjunct_pending := conjunct_pending st |}
      else if (0xFFFF <? ucs) && negb (_REGIONAL_INDICATOR_SET ucs)
              && _FITZPATRICK_RANGE ucs
              && _EMOJI_ZWJ_SET (last_measured_ucs st) then
        wcswidth_loop pwcs rest1 (idx + 1) st
      else if last_was_virama st && ISC_CONSONANT ucs then
        wcswidth_loop pwcs rest1 (idx + 1)
          {| total_width := total_width st;
             last_measured_idx := idx;
             last_measured_ucs := ucs;
             last_was_virama := false;
             conjunct_pending := true |}
      else
        let w := wcwidth ucs in
        if w <? 0 then -1
        else if 0 <? w then
          wcswidth_loop pwcs rest1 (idx + 1)
            {| total_width :=
                 (if conjunct_pending st then total_width st + 1
                  else total_width st) + w;
               last_measured_idx := idx;
               last_measured_ucs := ucs;
               last_was_virama := false;
               conjunct_pending := false |}
        else if (0 <=? last_measured_idx st) && CATEGORY_MC ucs then
          wcswidth_loop pwcs rest1 (idx + 1)
            {| total_width := total_width st + 1;
               last_measured_idx := -2;
               last_measured_ucs := last_measured_ucs st;
               last_was_virama := false;
               conjunct_pending := false |}
        else
          wcswidth_loop pwcs rest1 (idx + 1)
            {| total_width := total_width st;
               last_measured_idx := last_measured_idx st;
               last_measured_ucs := last_measured_ucs st;
               last_was_virama := _ISC_VIRAMA_SET ucs;
               conjunct_pending := conjunct_pending st |}
  end.

(** [wcswidth(pwcs)] with the default [n=None]. *)
Definition wcswidth (pwcs : str) : Z :=
  if isascii pwcs && forallb ascii_printable pwcs then len pwcs
  else wcswidth_loop pwcs pwcs 0 wstate_init.

(** ** [pad_string] *)

Definition pad_string (s : str) (width : Z) : str :=
  let visual_len := wcswidth s in
  let padding := Z.max 0 (width - visual_len) in
  s ++ str_mul (py " ") padding.

(** ** Exceptions, and results of code that may raise *)

Inductive exn :=
| ValueError (msg : str)
| TypeError (msg : str)
| AttributeError (msg : str).

(** [str(e)] *)
Definition exn_str (e : exn) : str :=
  match e with
  | ValueError m | TypeError m | AttributeError m => m
  end.

Inductive res (A : Type) :=
| Ok (a : A)
| Raise (e : exn).
Arguments Ok {A} a.
Arguments Raise {A} e.

Definition res_bind {A B} (r : res A) (k : A -> res B) : res B :=
  match r with
  | Ok a => k a
  | Raise e => Raise e
  end.

Notation "'let?' x ':=' r 'in' k" := (res_bind r (fun x => k))
  (at level 10, x name, r at level 100, k at level 200).

(** ** Decimal text of integers: [str(n)] and [%0Nd] *)

Fixpoint digits_acc (fuel : nat) (n : Z) (acc : str) : str :=
  match fuel with
  | O => acc
  | S fuel' =>
      let acc' := (48 + n mod 10) :: acc in
      if n <? 10 then acc' else digits_acc fuel' (n / 10) acc'
  end.

Definition str_nonneg (n : Z) : str :=
  digits_acc (S (Z.to_nat (Z.log2 n))) n [].

Definition str_int (n : Z) : str :=
  if n <? 0 then 45 :: str_nonneg (- n) else str_nonneg n.

(** [%0<w>d] of a non-negative number *)
Definition zero_padded (w : nat) (n : Z) : str :=
  let d := str_int n in replicate (w - length d)%nat 48 ++ d.

(** ** [datetime.date] *)

Record date := mkdate { year : Z; month : Z; day : Z }.

Definition is_leap (y : Z) : bool :=
  (y mod 4 =? 0) && (negb (y mod 100 =? 0) || (y mod 400 =? 0)).

Definition days_in_month (y m : Z) : Z :=
  if m =? 2 then (if is_leap y then 29 else 28)
  else if (m =? 4) || (m =? 6) || (m =? 9) || (m =? 11) then 30
  else 31.

(** The constructor [date(year, month, day)] with its range checks. *)
Definition date_new (y m d : Z) : res date :=
  if (y <? 1) || (9999 <? y) then
    Raise (ValueError (py "year " ++ str_int y ++ py " is out of range"))
  else if (m <? 1) || (12 <? m) then
    Raise (ValueError (py "month must be in 1..12"))
  else if (d <? 1) || (days_in_month y m <? d) then
    Raise (ValueError (py "day is out of range for month"))
  else Ok (mkdate y m d).

(** [a > b] on dates compares (year, month, day). *)
Definition date_gt (a b : date) : bool :=
  (year b <? year a)
  || ((year a =? year b)
      && ((month b <? month a)
          || ((month a =? month b) && (day b <? day a)))).

Definition date_le (a b : date) : bool := negb (date_gt a b).

(** [str(d)], that is [d.isoformat()]: ["%04d-%02d-%02d"]. *)
Definition isoformat (d : date) : str :=
  zero_padded 4 (year d) ++ py "-" ++ zero_padded 2 (month d)
  ++ py "-" ++ zero_padded 2 (day d).

(** ** The regular expression behind [strptime(_, "%Y-%m-%d")] *)

(** [\d] on [str] patterns matches every Unicode decimal digit. *)
Definition to_decimal (c : Z) : option Z :=
  if in_range 48 57 c then Some (c - 48)
  else if c <? 128 then None
  else unicode_todecimal c.

Definition is_decimal (c : Z) : bool :=
  match to_decimal c with Some _ => true | None => false end.

Inductive regex :=
| Lit (c : Z)
| Digit
| Range (lo hi : Z)
| Cat (r1 r2 : regex)
| Alt (r1 r2 : regex)
| Group (name : string) (r : regex).

Definition groupdict := list (string * str).

(** Backtracking matcher: alternatives are tried left to right and the
    first one whose continuation succeeds wins, as in [re].  The flag
    IGNORECASE, with which the pattern is compiled, changes nothing for
    digits, the hyphen and the blank. *)
Fixpoint re_run {A} (r : regex) (s : str) (g : groupdict)
    (k : str -> groupdict -> option A) : option A :=
  match r with
  | Lit c =>
      match s with
      | x :: s' => if x =? c then k s' g else None
      | [] => None
      end
  | Digit =>
      match s with
      | x :: s' => if is_decimal x then k s' g else None
      | [] => None
      end
  | Range lo hi =>
      match s with
      | x :: s' => if in_range lo hi x then k s' g else None
      | [] => None
      end
  | Cat r1 r2 => re_run r1 s g (fun s' g' => re_run r2 s' g' k)
  | Alt r1 r2 =>
      match re_run r1 s g k with
      | Some a => Some a
      | None => re_run r2 s g k
      end
  | Group name r1 =>
      re_run r1 s g
        (fun s' g' => k s' ((name, take (length s - length s') s) :: g'))
  end.

(** [regex.match(s)]: the captured groups and the unmatched rest
    [s[found.end():]]. *)
Definition re_match (r : regex) (s : str) : option (str * groupdict) :=
  re_run r s [] (fun rest g => Some (rest, g)).

Definition dash : Z := 45.
Definition space : Z := 32.
Definition chr (d : Z) : regex := Lit (48 + d).
Definition rng (a b : Z) : regex := Range (48 + a) (48 + b).

(** [TimeRE.pattern("%Y-%m-%d")]:
    [(?P<Y>\d\d\d\d)-(?P<m>1[0-2]|0[1-9]|[1-9])-(?P<d>3[0-1]|[1-2]\d|0[1-9]|[1-9]| [1-9])] *)
Definition re_Y : regex :=
  Group "Y" (Cat Digit (Cat Digit (Cat Digit Digit))).
Definition re_m : regex :=
  Group "m" (Alt (Cat (chr 1) (rng 0 2))
            (Alt (Cat (chr 0) (rng 1 9)) (rng 1 9))).
Definition re_d : regex :=
  Group "d" (Alt (Cat (chr 3) (rng 0 1))
            (Alt (Cat (rng 1 2) Digit)
            (Alt (Cat (chr 0) (rng 1 9))
            (Alt (rng 1 9) (Cat (Lit space) (rng 1 9)))))).
Definition format_regex : regex :=
  Cat re_Y (Cat (Lit dash) (Cat re_m (Cat (Lit dash) re_d))).

Fixpoint found_dict (name : string) (g : groupdict) : str :=
  match g with
  | (n, v) :: g' => if String.eqb n name then v else found_dict name g'
  | [] => []
  end.

(** [int(text)] on the text of a group: leading blanks are skipped, the
    rest is read as decimal digits. *)
Fixpoint int_digits (s : str) (acc : Z) : res Z :=
  match s with
  | [] => Ok acc
  | c :: s' =>
      match to_decimal c with
      | Some d => int_digits s' (10 * acc + d)
      | None => Raise (ValueError (py "invalid literal for int() with base 10"))
      end
  end.

Fixpoint lstrip_blank (s : str) : str :=
  match s with
  | c :: s' => if c =? space then lstrip_blank s' else s
  | [] => []
  end.

Definition int (s : str) : res Z :=
  match lstrip_blank s with
  | [] => Raise (ValueError (py "invalid literal for int() with base 10"))
  | t => int_digits t 0
  end.

Definition date_format : str := py "%Y-%m-%d".

(** [datetime.datetime.strptime(data_string, "%Y-%m-%d").date()] *)
Definition strptime (data_string : str) : res date :=
  match re_match format_regex data_string with
  | None =>
      Raise (ValueError (py "time data " ++ str_repr data_string
                         ++ py " does not match format "
                         ++ str_repr date_format))
  | Some (rest, g) =>
      match rest with
      | _ :: _ => Raise (ValueError (py "unconverted data remains: " ++ rest))
      | [] =>
          let? y := int (found_dict "Y" g) in
          let? m := int (found_dict "m" g) in
          let? d := int (found_dict "d" g) in
          date_new y m d
      end
  end.

(** ** [str.split(sep)] for a one-character separator *)

Fixpoint split_acc (sep : Z) (s : str) (cur : str) : list str :=
  match s with
  | [] => [rev cur]
  | c :: s' =>
      if c =? sep then rev cur :: split_acc sep s' []
      else split_acc sep s' (c :: cur)
  end.

Definition split (sep : Z) (s : str) : list str := split_acc sep s [].

Definition colon : Z := 58.

(** ** Runs of the program: trace, exit and uncaught exceptions *)

Inductive event :=
| Print (line : str)
| PrintTable (headers : list str) (table : list (list str))
| HttpGet (url : str).

Inductive outcome (A : Type) :=
| Returned (a : A)
| Exited (code : Z)
| Crashed (e : exn).
Arguments Returned {A} a.
Arguments Exited {A} code.
Arguments Crashed {A} e.

Definition proc (A : Type) : Type := list event * outcome A.

Definition ret {A} (a : A) : proc A := ([], Returned a).
Definition emit (e : event) : proc unit := ([e], Returned tt).
Definition print (line : str) : proc unit := emit (Print line).
Definition sys_exit {A} (code : Z) : proc A := ([], Exited code).
Definition crash {A} (e : exn) : proc A := ([], Crashed e).

Definition bind {A B} (p : proc A) (k : A -> proc B) : proc B :=
  match p with
  | (tr, Returned a) => let '(tr', o) := k a in (tr ++ tr', o)
  | (tr, Exited c) => (tr, Exited c)
  | (tr, Crashed e) => (tr, Crashed e)
  end.

Notation "'let!' x ':=' p 'in' k" := (bind p (fun x => k))
  (at level 10, x name, p at level 100, k at level 200).
Notation "'do!' p 'in' k" := (bind p (fun _ => k))
  (at level 10, p at level 100, k at level 200).

Definition trace {A} (p : proc A) : list event := fst p.
Definition result {A} (p : proc A) : outcome A := snd p.

(** The exit status of the process. *)
Definition exit_code {A} (p : proc A) : Z :=
  match result p with
  | Returned _ => 0
  | Exited c => c
  | Crashed _ => 1
  end.

Definition is_table (e : event) : bool :=
  match e with PrintTable _ _ => true | _ => false end.
Definition is_request (e : event) : bool :=
  match e with HttpGet _ => true | _ => false end.

(** ** [parse_dates] *)

(** The body of the [try] block. *)
Definition parse_dates_try (date_str : str) : res (date * date) :=
  let? dates :=
    (if str_in (py ":") date_str then
       match split colon date_str with
       | [start_str; end_str] =>
           let? start_date := strptime start_str in
           let? end_date := strptime end_str in
           Ok (start_date, end_date)
       | _ :: _ :: _ :: _ =>
           Raise (ValueError (py "too many values to unpack (expected 2)"))
       | _ =>
           Raise (ValueError (py "not enough values to unpack (expected 2)"))
       end
     else
       let? d := strptime date_str in Ok (d, d)) in
  if date_gt (fst dates) (snd dates) then
    Raise (ValueError (py "Start date must be before or equal to end date."))
  else Ok dates.

Definition parse_dates (date_str : str) : proc (date * date) :=
  match parse_dates_try date_str with
  | Ok dates => ret dates
  | Raise e =>
      do! print (py "Error parsing date(s): " ++ exn_str e) in sys_exit 1
  end.

(** ** [fetch_weather] *)

(** Values decoded from JSON.  A float is carried by its Python text
    ([str(x)]); floating-point arithmetic is not part of the program. *)
Inductive json :=
| JNull
| JBool (b : bool)
| JInt (n : Z)
| JFloat (shown : str)
| JStr (s : str)
| JList (items : list json)
| JDict (items : list (str * json)).

(** What the server answered.  [json_of] is the result of
    [response.json()]: [inl msg] when the body is not JSON and
    [requests.exceptions.JSONDecodeError] (a [RequestException]) is
    raised with text [msg]. *)
Record response := {
  status_code : Z;
  text : str;
  json_of : str + json
}.

(** [requests.get(url)]: a [RequestException] with text [msg], or a
    response. *)
Inductive http_result :=
| RequestException (msg : str)
| Responded (r : response).

Definition endpoint : str :=
  py "https://weather.visualcrossing.com/VisualCrossingWebServices/rest/services/timeline/".

Definition fetch_weather (requests_get : str -> http_result)
    (nation city : str) (start_date end_date : date) (api_key : str)
    : proc json :=
  let location := city ++ py "," ++ nation in
  let url :=
    endpoint ++ location ++ py "/" ++ isoformat start_date ++ py "/"
    ++ isoformat end_date ++ py "?unitGroup=metric&key=" ++ api_key
    ++ py "&include=days" in
  do! emit (HttpGet url) in
  match requests_get url with
  | Responded r =>
      if negb (status_code r =? 200) then
        do! print (py "Error fetching weather data: "
                   ++ str_int (status_code r) ++ py " - " ++ text r) in
        sys_exit 1
      else
        match json_of r with
        | inr data => ret data
        | inl msg => do! print (py "Request failed: " ++ msg) in sys_exit 1
        end
  | RequestException msg =>
      do! print (py "Request failed: " ++ msg) in sys_exit 1
  end.

(** ** [get_weather_emoji] *)

(** [str.lower]: ASCII strings take the byte-wise path of CPython. *)
Definition str_lower (s : str) : str :=
  if isascii s then map ascii_tolower s else unicode_lower s.

Definition SUN : str := [0x2600; 0xFE0F].
Definition PARTLY_CLOUDY : str := [0x26C5].
Definition RAIN : str := [0x1F327; 0xFE0F].
Definition SNOW : str := [0x2744; 0xFE0F].
Definition STORM : str := [0x26C8; 0xFE0F].
Definition FOG : str := [0x1F32B; 0xFE0F].
Definition RAINBOW : str := [0x1F308].

Definition get_weather_emoji (condition : str) : str :=
  let condition := str_lower condition in
  if str_in (py "clear") condition || str_in (py "sun") condition then SUN
  else if str_in (py "partly") condition || str_in (py "cloud") condition
  then PARTLY_CLOUDY
  else if str_in (py "rain") condition then RAIN
  else if str_in (py "snow") condition then SNOW
  else if str_in (py "storm") condition || str_in (py "thunder") condition
  then STORM
  else if str_in (py "fog") condition then FOG
  else RAINBOW.

(** ** [main] *)

(** [str(x)] and [repr(x)] of decoded JSON values, as f-strings use. *)
Definition join (sep : str) (parts : list str) : str :=
  match parts with
  | [] => []
  | p :: ps => p ++ concat (map (fun q => sep ++ q) ps)
  end.

Fixpoint py_repr (j : json) : str :=
  match j with
  | JNull => py "None"
  | JBool true => py "True"
  | JBool false => py "False"
  | JInt n => str_int n
  | JFloat shown => shown
  | JStr s => str_repr s
  | JList items => py "[" ++ join (py ", ") (map py_repr items) ++ py "]"
  | JDict items =>
      py "{"
      ++ join (py ", ")
           (map (fun kv => str_repr (fst kv) ++ py ": " ++ py_repr (snd kv))
                items)
      ++ py "}"
  end.

Definition py_str (j : json) : str :=
  match j with
  | JStr s => s
  | _ => py_repr j
  end.

Definition type_name (j : json) : str :=
  match j with
  | JNull => py "NoneType"
  | JBool _ => py "bool"
  | JInt _ => py "int"
  | JFloat _ => py "float"
  | JStr _ => py "str"
  | JList _ => py "list"
  | JDict _ => py "dict"
  end.

Definition no_attribute (j : json) (attr : string) : exn :=
  AttributeError (py "'" ++ type_name j ++ py "' object has no attribute '"
                  ++ py attr ++ py "'").

(** [d.get(key, default)] on a dict given by its items. *)
Fixpoint dict_get (key : str) (default : json) (items : list (str * json))
    : json :=
  match items with
  | [] => default
  | (k, v) :: items' =>
      if str_eqb k key then v else dict_get key default items'
  end.

(** [x.get(key, default)] on an arbitrary value. *)
Definition get (x : json) (key : string) (default : json) : res json :=
  match x with
  | JDict items => Ok (dict_get (py key) default items)
  | _ => Raise (no_attribute x "get")
  end.

(** Truth value of a decoded value, as in [if not days]. *)
Definition truthy (j : json) : bool :=
  match j with
  | JNull => false
  | JBool b => b
  | JInt n => negb (n =? 0)
  | JFloat shown =>
      negb (str_eqb shown (py "0.0") || str_eqb shown (py "-0.0"))
  | JStr s => negb (str_eqb s [])
  | JList items => match items with [] => false | _ => true end
  | JDict items => match items with [] => false | _ => true end
  end.

(** The values [for day in days] runs through. *)
Definition iterate (days : json) : res (list json) :=
  match days with
  | JList items => Ok items
  | JDict items => Ok (map (fun kv => JStr (fst kv)) items)
  | JStr s => Ok (map (fun c => JStr [c]) s)
  | _ =>
      Raise (TypeError (py "'" ++ type_name days
                        ++ py "' object is not iterable"))
  end.

Definition degree : str := [0xB0].

Definition headers : list str :=
  [py "Date"; py "Weather";
   [0x1F321; 0xFE0F] ++ py " Max/Min (" ++ degree ++ py "C)";
   [0x1F4A7] ++ py " Rain %";
   [0x1F4A8] ++ py " Wind (km/h)"].

(** One pass of the loop body: the row appended to [table]. *)
Definition table_row (day : json) : res (list str) :=
  let? date := get day "datetime" JNull in
  let? tempmax := get day "tempmax" (JStr (py "N/A")) in
  let? tempmin := get day "tempmin" (JStr (py "N/A")) in
  let? precip := get day "precipprob" (JStr (py "N/A")) in
  let? wind := get day "windspeed" (JStr (py "N/A")) in
  let? condition := get day "conditions" (JStr (py "Unknown")) in
  let? emoji :=
    match condition with
    | JStr c => Ok (get_weather_emoji c)
    | _ => Raise (no_attribute condition "lower")
    end in
  let? date_cell :=
    match date with
    | JStr d => Ok (pad_string d 10)
    | _ => Raise (no_attribute date "isascii")
    end in
  Ok [date_cell;
      pad_string (emoji ++ py " " ++ py_str condition) 20;
      pad_string (py_str tempmax ++ degree ++ py " / " ++ py_str tempmin
                  ++ degree) 15;
      pad_string (py_str precip ++ py "%") 8;
      pad_string (py_str wind ++ py " km/h") 12].

Fixpoint table_rows (days : list json) : res (list (list str)) :=
  match days with
  | [] => Ok []
  | day :: days' =>
      let? row := table_row day in
      let? rows := table_rows days' in
      Ok (row :: rows)
  end.

Definition lift {A} (r : res A) : proc A :=
  match r with
  | Ok a => ret a
  | Raise e => crash e
  end.

(** The command line after [argparse], the environment variable and the
    network the process runs against. *)
Record world := {
  args_nation : str;
  args_city : str;
  args_date : str;
  environ_api_key : option str;
  requests_get : str -> http_result
}.

Definition main (w : world) : proc unit :=
  let! dates := parse_dates (args_date w) in
  let '(start_date, end_date) := dates in
  match environ_api_key w with
  | None | Some [] =>
      do! print (py "Please set the VISUAL_CROSSING_API_KEY environment variable with your API key.") in
      sys_exit 1
  | Some api_key =>
      let! data := fetch_weather (requests_get w) (args_nation w)
                     (args_city w) start_date end_date api_key in
      do! print ([10; 0x1F4CD] ++ py " " ++ str_title (args_city w)
                 ++ py " (" ++ str_upper (args_nation w) ++ py ") "
                 ++ [0x2014] ++ py " " ++ isoformat start_date ++ py " to "
                 ++ isoformat end_date ++ [10]) in
      let! days := lift (get data "days" (JList [])) in
      if negb (truthy days) then
        do! print (py "No weather data available for the specified period.") in
        sys_exit 0
      else
        let! items := lift (iterate days) in
        let! table := lift (table_rows items) in
        emit (PrintTable headers table)
  end.

End Program.

Arguments Ok {A} a.
Arguments Raise {A} e.
Arguments Returned {A} a.
Arguments Exited {A} code.
Arguments Crashed {A} e.

(** * The specification's reading, for comparison with the code *)

Module Spec.

Definition ascii_digit (c : Z) : bool := in_range 48 57 c.

(** "strict [YYYY-MM-DD] format": four digits, a hyphen, two digits, a
    hyphen, two digits. *)
Definition strict_format (s : str) : bool :=
  match s with
  | [y1; y2; y3; y4; h1; m1; m2; h2; d1; d2] =>
      forallb ascii_digit [y1; y2; y3; y4; m1; m2; d1; d2]
      && (h1 =? dash) && (h2 =? dash)
  | _ => false
  end.

(** A calendar date, in the range [datetime.date] supports. *)
Definition valid_date (d : date) : bool :=
  (1 <=? year d) && (year d <=? 9999)
  && (1 <=? month d) && (month d <=? 12)
  && (1 <=? day d) && (day d <=? days_in_month (year d) (month d)).

Definition number (ds : list Z) : Z :=
  fold_left (fun acc c => 10 * acc + (c - 48)) ds 0.

(** "parse as calendar date under strict [YYYY-MM-DD] format" *)
Definition parse_date (s : str) : option date :=
  match s with
  | [y1; y2; y3; y4; _; m1; m2; _; d1; d2] =>
      let d := mkdate (number [y1; y2; y3; y4]) (number [m1; m2])
                 (number [d1; d2]) in
      if strict_format s && valid_date d then Some d else None
  | _ => None
  end.

Inductive parsed :=
| Interval (start_date end_date : date)
| DateFormatError
| DateOrderError.

(** "split into two substrings before/after" the separator *)
Fixpoint before (sep : Z) (s : str) : str :=
  match s with
  | [] => []
  | c :: s' => if c =? sep then [] else c :: before sep s'
  end.

Fixpoint after (sep : Z) (s : str) : str :=
  match s with
  | [] => []
  | c :: s' => if c =? sep then s' else after sep s'
  end.

Definition parseDateRange (token : str) : parsed :=
  if str_in (py ":") token then
    match parse_date (before colon token), parse_date (after colon token) with
    | Some s, Some e => if date_gt s e then DateOrderError else Interval s e
    | _, _ => DateFormatError
    end
  else
    match parse_date token with
    | Some d => Interval d d
    | None => DateFormatError
    end.

(** "ordered keyword matching against a fixed priority list": the list,
    and the first rule one of whose keywords occurs in the text. *)
Definition rules : list (list str * str) :=
  [([py "clear"; py "sun"], SUN);
   ([py "partly"; py "cloud"], PARTLY_CLOUDY);
   ([py "rain"], RAIN);
   ([py "snow"], SNOW);
   ([py "storm"; py "thunder"], STORM);
   ([py "fog"], FOG)].

Fixpoint first_match (rs : list (list str * str)) (text : str) : str :=
  match rs with
  | [] => RAINBOW
  | (keywords, symbol) :: rs' =>
      if existsb (fun k => str_in k text) keywords then symbol
      else first_match rs' text
  end.








(** "absent or empty list" of days in the decoded response *)
Fixpoint lookup (key : str) (items : list (str * json)) : option json :=
  match items with
  | [] => None
  | (k, v) :: items' => if str_eqb k key then Some v else lookup key items'
  end.

Definition days_absent_or_empty (items : list (str * json)) : bool :=
  match lookup (py "days") items with
  | None | Some (JList []) => true
  | _ => false
  end.

End Spec.

(** The URLs requested in a run, and the lines printed. *)
Definition requested (tr : list event) : list str :=
  flat_map (fun e => match e with HttpGet u => [u] | _ => [] end) tr.

Definition printed (tr : list event) : list str :=
  flat_map (fun e => match e with Print l => [l] | _ => [] end) tr.

(** ** Predicates used in the statements *)

(** A character that occupies one terminal column. *)
Definition single_width `{UnicodeData} (c : Z) : Prop := wcwidth c = 1.

(** Facts about the tables shipped with [wcwidth] that the proofs use:
    the zero-width joiner and variation selector 16 are zero-width;
    regional indicators and skin-tone modifiers are wide. *)
Definition tables_consistent `{UnicodeData} : Prop :=
  ZERO_WIDTH 0x200D = true
  /\ ZERO_WIDTH 0xFE0F = true
  /\ (forall c, _REGIONAL_INDICATOR_SET c = true -> WIDE_EASTASIAN c = true)
  /\ (forall c, _FITZPATRICK_RANGE c = true -> WIDE_EASTASIAN c = true).

(** Lower-casing a lower-cased string changes nothing: a property of
    the Unicode case mappings, stated for the non-ASCII path. *)
Definition lower_stable `{UnicodeData} : Prop :=
  forall s, isascii s = false -> str_lower (unicode_lower s) = unicode_lower s.

(** What [parse_dates] accepts: one substring, or two substrings joined
    by one separator, each read by [strptime], in order. *)
Definition accepts `{UnicodeData} (token : str) (s e : date) : Prop :=
  ((str_in (py ":") token = false /\ strptime token = Ok s /\ e = s)
   \/ (exists a b, split colon token = [a; b]
                   /\ strptime a = Ok s /\ strptime b = Ok e))
  /\ date_gt s e = false.

Definition has (sep : Z) (s : str) : bool := existsb (Z.eqb sep) s.


Definition guidance : str :=
  py "Please set the VISUAL_CROSSING_API_KEY environment variable with your API key.".

Definition no_data_notice : str :=
  py "No weather data available for the specified period.".

(** A computation that sends no request. *)
Definition offline {A} (p : proc A) : Prop := requested (trace p) = [].

(** Worlds for running the program: Paris, five days in June 2024. *)
Definition sample_world (key : option str) (answer : http_result) : world :=
  {| args_nation := py "FR"; args_city := py "Paris";
     args_date := py "2024-06-01:2024-06-05"; environ_api_key := key;
     requests_get := fun _ => answer |}.

Definition answer_404 : http_result :=
  Responded {| status_code := 404; text := py "Not Found";
               json_of := inl (py "Expecting value") |}.

Definition answer_no_days : http_result :=
  Responded {| status_code := 200; text := py "{}"; json_of := inr (JDict []) |}.

(** ** Predicates used in the further properties *)

(** The text of one date as [strptime] accepts it: four decimal digits,
    a hyphen, a month of one or two ASCII digits, a hyphen and a day of
    one or two characters. *)
Definition date_text `{UnicodeData} (t : str) : Prop :=
  exists y1 y2 y3 y4 M D,
    t = [y1; y2; y3; y4] ++ dash :: M ++ dash :: D
    /\ forallb is_decimal [y1; y2; y3; y4] = true
    /\ (1 <= length M <= 2)%nat
    /\ forallb Spec.ascii_digit M = true
    /\ (1 <= length D <= 2)%nat.

(** Whether the lower-cased condition contains a keyword. *)
Definition mentions `{UnicodeData} (condition : str) (keyword : string) : bool :=
  str_in (py keyword) (str_lower condition).

(** A day record for which the loop body of [main] produces a row: an
    object whose [datetime] is a string and whose [conditions], when
    present, is a string. *)
Definition well_formed_day (day : json) : bool :=
  match day with
  | JDict items =>
      match dict_get (py "datetime") JNull items,
            dict_get (py "conditions") (JStr (py "Unknown")) items with
      | JStr _, JStr _ => true
      | _, _ => false
      end
  | _ => false
  end.

(** The last part of [main], from the lookup of [days] on. *)
Definition report_days `{UnicodeData} (data : json) : proc unit :=
  bind (lift (get data "days" (JList [])))
    (fun days =>
       if negb (truthy days) then
         bind (print no_data_notice) (fun _ => sys_exit 0)
       else
         bind (lift (iterate days))
           (fun items =>
              bind (lift (table_rows items))
                (fun table => emit (PrintTable headers table)))).

(** The first line [main] prints after a successful request. *)
Definition banner `{UnicodeData} (w : world) (start_date end_date : date) : str :=
  [10; 0x1F4CD] ++ py " " ++ str_title (args_city w)
  ++ py " (" ++ str_upper (args_nation w) ++ py ") "
  ++ [0x2014] ++ py " " ++ isoformat start_date ++ py " to "
  ++ isoformat end_date ++ [10].

(** The URL [fetch_weather] asks for. *)
Definition timeline_url (nation city : str) (start_date end_date : date)
    (api_key : str) : str :=
  endpoint ++ (city ++ py "," ++ nation) ++ py "/" ++ isoformat start_date
  ++ py "/" ++ isoformat end_date ++ py "?unitGroup=metric&key=" ++ api_key
  ++ py "&include=days".

(** More answers for the sample world: a 200 answer with a given value
    of [days], one well-formed day record, and a failed request. *)
Definition answer_days (days : json) : http_result :=
  Responded {| status_code := 200; text := [];
               json_of := inr (JDict [(py "days", days)]) |}.

Definition good_day : json :=
  JDict [(py "datetime", JStr (py "2024-06-01"));
         (py "tempmax", JFloat (py "25.3"));
         (py "tempmin", JInt 12);
         (py "precipprob", JInt 0);
         (py "conditions", JStr (py "Clear"))].

Definition answer_not_json : http_result :=
  Responded {| status_code := 200; text := py "<html>";
               json_of := inl (py "Expecting value: line 1 column 1 (char 0)") |}.

(** * Properties of [pad_string] *)

Section PadString.

Context `{UnicodeData}.

Lemma len_app (a b : str) : len (a ++ b) = len a + len b.
Proof. unfold len. rewrite length_app. lia. Qed.

Lemma len_nonneg (s : str) : 0 <= len s.
Proof. unfold len. lia. Qed.

Lemma str_mul_space (n : Z) :
  str_mul (py " ") n = replicate (Z.to_nat n) space.
Proof.
  unfold str_mul. induction (Z.to_nat n) as [|k IH]; simpl; [done|].
  now rewrite IH.
Qed.

Lemma len_replicate (n : Z) (c : Z) :
  len (replicate (Z.to_nat n) c) = Z.max 0 n.
Proof. unfold len. rewrite length_replicate. lia. Qed.

Lemma wcwidth_space : wcwidth space = 1.
Proof. reflexivity. Qed.

Lemma wcwidth_high (c : Z) :
  0xA0 <= c ->
  wcwidth c = if ZERO_WIDTH c then 0 else if WIDE_EASTASIAN c then 2 else 1.
Proof.
  intros Hc. unfold wcwidth.
  replace ((32 <=? c) && (c <? 0x7f)) with false by lia.
  replace ((negb (c =? 0) && (c <? 32)) || ((0x07F <=? c) && (c <? 0x0A0)))
    with false by lia.
  reflexivity.
Qed.

Lemma wide_not_narrow (c : Z) :
  0xA0 <= c -> WIDE_EASTASIAN c = true -> wcwidth c <> 1.
Proof.
  intros Hc Hw. rewrite wcwidth_high by done. rewrite Hw.
  destruct (ZERO_WIDTH c); lia.
Qed.

Lemma zero_not_narrow (c : Z) :
  0xA0 <= c -> ZERO_WIDTH c = true -> wcwidth c <> 1.
Proof. intros Hc Hz. rewrite wcwidth_high by done. rewrite Hz. lia. Qed.

(** Characters the measuring loop treats specially are not narrow. *)
Lemma narrow_not_special (c : Z) :
  tables_consistent -> single_width c ->
  (c =? 0x200D) = false /\ (c =? 0xFE0F) = false
  /\ _REGIONAL_INDICATOR_SET c = false /\ _FITZPATRICK_RANGE c = false.
Proof.
  intros (Hz & Hv & Hri & Hfz) Hc. unfold single_width in Hc.
  repeat split.
  - destruct (Z.eqb_spec c 0x200D) as [->|]; [|done].
    exfalso. revert Hc. apply zero_not_narrow; [lia|done].
  - destruct (Z.eqb_spec c 0xFE0F) as [->|]; [|done].
    exfalso. revert Hc. apply zero_not_narrow; [lia|done].
  - destruct (_REGIONAL_INDICATOR_SET c) eqn:E; [|done].
    exfalso. revert Hc. apply wide_not_narrow; [|auto].
    unfold _REGIONAL_INDICATOR_SET, in_range in E. lia.
  - destruct (_FITZPATRICK_RANGE c) eqn:E; [|done].
    exfalso. revert Hc. apply wide_not_narrow; [|auto].
    unfold _FITZPATRICK_RANGE, in_range in E. lia.
Qed.

(** On narrow characters every pass of the loop adds one column. *)
Lemma wcswidth_loop_narrow (pwcs rest : str) :
  tables_consistent -> Forall single_width rest ->
  forall idx st,
    last_was_virama st = false -> conjunct_pending st = false ->
    wcswidth_loop pwcs rest idx st = total_width st + len rest.
Proof.
  intros Ht Hall. induction Hall as [|c rest1 Hc Hrest IH]; intros idx st Hv Hp.
  - simpl. rewrite Hp. unfold len. simpl. lia.
  - destruct (narrow_not_special c Ht Hc) as (E1 & E2 & E3 & E4).
    cbn [wcswidth_loop]. rewrite E1, E2, E3, E4, Hv. simpl.
    rewrite !andb_false_r. simpl.
    unfold single_width in Hc. rewrite !Hc. simpl.
    rewrite IH by done. simpl.
    rewrite Hp. unfold len. simpl length. lia.
Qed.

Lemma wcswidth_narrow (s : str) :
  tables_consistent -> Forall single_width s -> wcswidth s = len s.
Proof.
  intros Ht Hs. unfold wcswidth.
  destruct (isascii s && forallb ascii_printable s); [done|].
  rewrite wcswidth_loop_narrow by done. simpl. lia.
Qed.

(** C1.  For a string made only of single-width characters and any
    target width [w], [pad_string s w] has as many characters, and as
    many rendered columns, as [max (len s) w], and it is [s] followed
    on the right by space characters only. *)
Theorem pad_string_single_width (s : str) (w : Z) :
  tables_consistent -> Forall single_width s ->
  len (pad_string s w) = Z.max (len s) w
  /\ wcswidth (pad_string s w) = Z.max (len s) w
  /\ pad_string s w = s ++ replicate (Z.to_nat (Z.max (len s) w - len s)) space.
Proof.
  intros Ht Hs.
  assert (Hpad : pad_string s w
                 = s ++ replicate (Z.to_nat (Z.max (len s) w - len s)) space).
  { unfold pad_string. rewrite (wcswidth_narrow s Ht Hs), str_mul_space.
    do 2 f_equal. lia. }
  assert (Hlen : len (pad_string s w) = Z.max (len s) w).
  { rewrite Hpad, len_app, len_replicate. pose proof (len_nonneg s). lia. }
  split; [done|]. split; [|done].
  rewrite <- Hlen. apply wcswidth_narrow; [done|].
  rewrite Hpad. apply Forall_app. split; [done|].
  apply Forall_replicate. exact wcwidth_space.
Qed.

(** C2.  [pad_string s w] always begins with [s] unchanged, and when
    the display width of [s] is at least [w] it is [s] itself: nothing
    is cut off. *)
Theorem pad_string_keeps_content (s : str) (w : Z) :
  s `prefix_of` pad_string s w
  /\ (w <= wcswidth s -> pad_string s w = s).
Proof.
  split.
  - unfold pad_string. apply prefix_app_r. done.
  - intros Hw. unfold pad_string.
    replace (Z.max 0 (w - wcswidth s)) with 0 by lia.
    apply app_nil_r.
Qed.

End PadString.

Lemma excerpt_tables_consistent : @tables_consistent excerpt_tables.
Proof.
  unfold tables_consistent. simpl.
  split; [reflexivity|]. split; [reflexivity|].
  split; intros c; unfold _REGIONAL_INDICATOR_SET, _FITZPATRICK_RANGE, in_range;
    lia.
Qed.

Lemma pad_string_single_width_witness :
  len (@pad_string excerpt_tables (py "Paris") 10) = Z.max (len (py "Paris")) 10
  /\ @wcswidth excerpt_tables (@pad_string excerpt_tables (py "Paris") 10)
     = Z.max (len (py "Paris")) 10
  /\ @pad_string excerpt_tables (py "Paris") 10
     = py "Paris"
       ++ replicate (Z.to_nat (Z.max (len (py "Paris")) 10 - len (py "Paris")))
            space.
Proof.
  apply (@pad_string_single_width excerpt_tables (py "Paris") 10).
  - exact excerpt_tables_consistent.
  - repeat constructor.
Defined.

Lemma pad_string_keeps_content_witness :
  py "2024-06-01" `prefix_of` @pad_string excerpt_tables (py "2024-06-01") 10
  /\ @pad_string excerpt_tables (py "2024-06-01") 10 = py "2024-06-01".
Proof.
  destruct (@pad_string_keeps_content excerpt_tables (py "2024-06-01") 10)
    as [Hpre Hsame].
  split; [exact Hpre|]. apply Hsame. vm_compute. discriminate.
Defined.

(** * Properties of [parse_dates] *)

Section ParseDates.

Context `{UnicodeData}.

Lemma str_in_char (c : Z) (s : str) : str_in [c] s = has c s.
Proof.
  induction s as [|h t IH]; [done|].
  simpl. rewrite IH. destruct t; simpl; now rewrite andb_true_r.
Qed.

Lemma split_acc_no_sep (sep : Z) (s cur : str) :
  has sep s = false -> split_acc sep s cur = [rev cur ++ s].
Proof.
  revert cur. induction s as [|c s IH]; intros cur Hs; simpl.
  - now rewrite app_nil_r.
  - simpl in Hs. apply orb_false_iff in Hs as [Hc Hs].
    rewrite Z.eqb_sym, Hc. rewrite IH by done. simpl.
    now rewrite <- app_assoc.
Qed.

Lemma split_acc_first (sep : Z) (s cur : str) :
  has sep s = true ->
  split_acc sep s cur
  = (rev cur ++ Spec.before sep s) :: split_acc sep (Spec.after sep s) [].
Proof.
  revert cur. induction s as [|c s IH]; intros cur Hs; simpl; [done|].
  simpl in Hs. rewrite (Z.eqb_sym sep c) in Hs.
  destruct (c =? sep) eqn:E.
  - now rewrite app_nil_r.
  - simpl in Hs. rewrite IH by done. simpl. now rewrite <- app_assoc.
Qed.

(** With one separator, [split] gives the text before and after it. *)
Lemma split_one_separator (s : str) :
  has colon s = true -> has colon (Spec.after colon s) = false ->
  split colon s = [Spec.before colon s; Spec.after colon s].
Proof.
  intros H1 H2. unfold split. rewrite split_acc_first by done.
  now rewrite split_acc_no_sep by done.
Qed.

Lemma split_two_has_colon (s a b : str) :
  split colon s = [a; b] -> has colon s = true.
Proof.
  intros Hs. destruct (has colon s) eqn:E; [done|].
  unfold split in Hs. rewrite split_acc_no_sep in Hs by done. discriminate.
Qed.

(** The result of [parse_dates] follows the result of its [try] block. *)
Lemma parse_dates_of_try (token : str) :
  parse_dates token
  = match parse_dates_try token with
    | Ok dates => ([], Returned dates)
    | Raise e =>
        ([Print (py "Error parsing date(s): " ++ exn_str e)], Exited 1)
    end.
Proof. unfold parse_dates. now destruct (parse_dates_try token). Qed.

Lemma parse_dates_try_accepts (token : str) (s e : date) :
  parse_dates_try token = Ok (s, e) <-> accepts token s e.
Proof.
  unfold parse_dates_try, accepts.
  change (py ":") with [colon]. rewrite str_in_char.
  split.
  - destruct (has colon token) eqn:Hc.
    + destruct (split colon token) as [|a [|b [|c l]]] eqn:Hs; simpl;
        try discriminate.
      destruct (strptime a) as [sa|] eqn:Ha; simpl; [|discriminate].
      destruct (strptime b) as [sb|] eqn:Hb; simpl; [|discriminate].
      destruct (date_gt sa sb) eqn:Hgt; [discriminate|].
      intros [= <- <-]. split; [|done]. right. now exists a, b.
    + destruct (strptime token) as [d|] eqn:Hd; simpl; [|discriminate].
      destruct (date_gt d d) eqn:Hgt; [discriminate|].
      intros [= <- <-]. split; [|done]. now left.
  - intros [[(Hc & Hd & ->)|(a & b & Hs & Ha & Hb)] Hgt].
    + rewrite Hc, Hd. simpl. now rewrite Hgt.
    + rewrite (split_two_has_colon _ _ _ Hs), Hs, Ha, Hb. simpl.
      now rewrite Hgt.
Qed.

(** ** [strptime] on strictly formatted text *)

Lemma to_decimal_ascii (c : Z) :
  Spec.ascii_digit c = true -> to_decimal c = Some (c - 48).
Proof. intros Hc. unfold to_decimal. unfold Spec.ascii_digit in Hc. now rewrite Hc. Qed.

Lemma is_decimal_ascii (c : Z) : Spec.ascii_digit c = true -> is_decimal c = true.
Proof. intros Hc. unfold is_decimal. now rewrite to_decimal_ascii. Qed.

Lemma int_digits_ascii (ds : str) (acc : Z) :
  forallb Spec.ascii_digit ds = true ->
  int_digits ds acc = Ok (fold_left (fun a c => 10 * a + (c - 48)) ds acc).
Proof.
  revert acc. induction ds as [|c ds IH]; intros acc Hds; [done|].
  simpl in Hds. apply andb_true_iff in Hds as [Hc Hds].
  simpl. rewrite to_decimal_ascii by done. now apply IH.
Qed.

Lemma int_ascii (c : Z) (ds : str) :
  forallb Spec.ascii_digit (c :: ds) = true ->
  int (c :: ds) = Ok (Spec.number (c :: ds)).
Proof.
  intros Hds. unfold int.
  assert (Hc : (c =? space) = false).
  { simpl in Hds. unfold Spec.ascii_digit, in_range, space in *. lia. }
  cbn [lstrip_blank]. rewrite Hc. now apply int_digits_ascii.
Qed.

Lemma date_new_valid (d : date) :
  Spec.valid_date d = true -> date_new (year d) (month d) (day d) = Ok d.
Proof.
  intros Hd. unfold Spec.valid_date in Hd. unfold date_new.
  replace ((year d <? 1) || (9999 <? year d)) with false by lia.
  replace ((month d <? 1) || (12 <? month d)) with false by lia.
  replace ((day d <? 1) || (days_in_month (year d) (month d) <? day d))
    with false by lia.
  now destruct d.
Qed.

(** Case analysis on the value of a digit character. *)
Ltac enum x vals :=
  lazymatch vals with
  | nil => exfalso; lia
  | cons ?v ?vs => destruct (Z.eq_dec x v) as [->|?]; [|enum x vs]
  end.

Lemma re_Y_digits {A} (y1 y2 y3 y4 : Z) (rest : str) (r : regex)
    (k : str -> groupdict -> option A) :
  forallb Spec.ascii_digit [y1; y2; y3; y4] = true ->
  re_run (Cat re_Y r) (y1 :: y2 :: y3 :: y4 :: rest) [] k
  = re_run r rest [("Y"%string, [y1; y2; y3; y4])] k.
Proof.
  intros Hy. simpl in Hy.
  repeat (apply andb_true_iff in Hy as [?%is_decimal_ascii Hy]).
  cbn [re_run re_Y]. 
  repeat match goal with Hd : is_decimal _ = true |- _ => rewrite Hd; clear Hd end.
  cbn [length].
  replace (S (S (S (S (length rest)))) - length rest)%nat with 4%nat by lia.
  reflexivity.
Qed.

Lemma re_match_strict (y1 y2 y3 y4 m1 m2 d1 d2 : Z) :
  forallb Spec.ascii_digit [y1; y2; y3; y4; m1; m2; d1; d2] = true ->
  1 <= Spec.number [m1; m2] <= 12 ->
  1 <= Spec.number [d1; d2] <= 31 ->
  re_match format_regex [y1; y2; y3; y4; dash; m1; m2; dash; d1; d2]
  = Some ([], [("d"%string, [d1; d2]); ("m"%string, [m1; m2]);
               ("Y"%string, [y1; y2; y3; y4])]).
Proof.
  intros Hall Hm Hd. unfold re_match, format_regex.
  simpl in Hall. repeat (apply andb_true_iff in Hall as [? Hall]).
  rewrite re_Y_digits
    by (simpl; repeat match goal with
                      | Hx : Spec.ascii_digit _ = true |- _ => rewrite Hx; clear Hx
                      end; reflexivity).
  unfold Spec.ascii_digit, in_range in *. unfold Spec.number in Hm, Hd. simpl in Hm, Hd.
  enum m1 [48; 49]; enum m2 [48; 49; 50; 51; 52; 53; 54; 55; 56; 57];
  try (exfalso; lia);
  enum d1 [48; 49; 50; 51]; enum d2 [48; 49; 50; 51; 52; 53; 54; 55; 56; 57];
  try (exfalso; lia);
  reflexivity.
Qed.

Lemma days_in_month_le (y m : Z) : days_in_month y m <= 31.
Proof.
  unfold days_in_month.
  repeat match goal with |- context [if ?b then _ else _] => destruct b end; lia.
Qed.

Lemma strptime_strict (t : str) (d : date) :
  Spec.parse_date t = Some d -> strptime t = Ok d.
Proof.
  unfold Spec.parse_date.
  destruct t as [|y1 [|y2 [|y3 [|y4 [|h1 [|m1 [|m2 [|h2 [|d1 [|d2 [|x t]]]]]]]]]]];
    try discriminate.
  set (dd := mkdate _ _ _).
  destruct (Spec.strict_format _ && Spec.valid_date dd) eqn:E; [|discriminate].
  intros [= <-]. apply andb_true_iff in E as [Hs Hv].
  unfold Spec.strict_format in Hs.
  apply andb_true_iff in Hs as [Hs Hh2]. apply andb_true_iff in Hs as [Hs Hh1].
  apply Z.eqb_eq in Hh1, Hh2. subst h1 h2.
  pose proof (date_new_valid dd Hv) as Hnew.
  pose proof (days_in_month_le (year dd) (month dd)) as Hdim.
  unfold Spec.valid_date in Hv.
  unfold strptime. rewrite re_match_strict; [|done|simpl in *; lia|simpl in *; lia].
  cbn [found_dict String.eqb Ascii.eqb Bool.eqb].
  simpl in Hs. repeat (apply andb_true_iff in Hs as [? Hs]).
  rewrite !int_ascii
    by (simpl; repeat match goal with
                      | Hx : Spec.ascii_digit _ = true |- _ => rewrite Hx; clear Hx
                      end; reflexivity).
  exact Hnew.
Qed.

Lemma strict_no_colon (t : str) (d : date) :
  Spec.parse_date t = Some d -> has colon t = false.
Proof.
  unfold Spec.parse_date.
  destruct t as [|y1 [|y2 [|y3 [|y4 [|h1 [|m1 [|m2 [|h2 [|d1 [|d2 [|x t]]]]]]]]]]];
    try discriminate.
  destruct (Spec.strict_format _ && _) eqn:E; [|discriminate].
  intros _. apply andb_true_iff in E as [Hs _].
  unfold Spec.strict_format in Hs. simpl in Hs.
  unfold has. cbn [existsb].
  unfold Spec.ascii_digit, in_range, colon, dash in *. lia.
Qed.

Lemma date_gt_irrefl (d : date) : date_gt d d = false.
Proof. unfold date_gt. lia. Qed.

(** On one strictly formatted date the [try] block returns it twice. *)
Lemma parse_dates_try_strict_single (token : str) (d : date) :
  Spec.parse_date token = Some d -> parse_dates_try token = Ok (d, d).
Proof.
  intros Hd. apply parse_dates_try_accepts. split; [|apply date_gt_irrefl].
  left. change (py ":") with [colon]. rewrite str_in_char.
  split; [now apply strict_no_colon with d|].
  split; [now apply strptime_strict|done].
Qed.

(** On two strictly formatted dates the [try] block checks their order. *)
Lemma parse_dates_try_strict_range (token : str) (s e : date) :
  has colon token = true ->
  Spec.parse_date (Spec.before colon token) = Some s ->
  Spec.parse_date (Spec.after colon token) = Some e ->
  parse_dates_try token
  = if date_gt s e then
      Raise (ValueError
               (py "Start date must be before or equal to end date."))
    else Ok (s, e).
Proof.
  intros Hc Hs He. unfold parse_dates_try.
  change (py ":") with [colon]. rewrite str_in_char, Hc.
  rewrite split_one_separator by (try done; now apply strict_no_colon with e).
  rewrite (strptime_strict _ _ Hs), (strptime_strict _ _ He). simpl.
  now destruct (date_gt s e).
Qed.


(** C4, as amended.  [parse_dates] either returns a pair with
    start <= end, or prints ["Error parsing date(s): ..."] and exits
    with code 1.  It fails exactly when the token is not one substring,
    or two substrings around a single separator, that [strptime] reads,
    or when start is after end.  Every token the strict reading accepts
    is accepted with the same dates, and a start after the end is
    reported as such; text outside the strict form is rejected only
    when [strptime] rejects it. *)
Theorem parse_dates_failure (token : str) :
  ((exists s e, parse_dates token = ret (s, e) /\ date_le s e = true)
   \/ (exists msg,
         parse_dates token
         = ([Print (py "Error parsing date(s): " ++ msg)], Exited 1)))
  /\ ((exists msg,
         parse_dates token
         = ([Print (py "Error parsing date(s): " ++ msg)], Exited 1))
      <-> ~ (exists s e, accepts token s e))
  /\ (forall s e,
        Spec.parseDateRange token = Spec.Interval s e ->
        parse_dates token = ret (s, e))
  /\ (Spec.parseDateRange token = Spec.DateOrderError ->
      parse_dates token
      = ([Print (py "Error parsing date(s): Start date must be before or equal to end date.")],
         Exited 1)).
Proof.
  rewrite parse_dates_of_try. repeat split.
  - destruct (parse_dates_try token) as [[s e]|err] eqn:E.
    + left. exists s, e. split; [done|].
      apply parse_dates_try_accepts in E as [_ Hgt].
      unfold date_le. now rewrite Hgt.
    + right. now exists (exn_str err).
  - intros [msg Hmsg] (s & e & Hacc).
    apply parse_dates_try_accepts in Hacc. rewrite Hacc in Hmsg. discriminate.
  - intros Hno. destruct (parse_dates_try token) as [[s e]|err] eqn:E.
    + exfalso. apply Hno. exists s, e. now apply parse_dates_try_accepts.
    + now exists (exn_str err).
  - intros s e. unfold Spec.parseDateRange.
    change (py ":") with [colon]. rewrite str_in_char.
    destruct (has colon token) eqn:Hc.
    + destruct (Spec.parse_date (Spec.before colon token)) as [s'|] eqn:Hs;
        [|discriminate].
      destruct (Spec.parse_date (Spec.after colon token)) as [e'|] eqn:He;
        [|discriminate].
      rewrite (parse_dates_try_strict_range _ _ _ Hc Hs He).
      destruct (date_gt s' e'); [discriminate|]. now intros [= <- <-].
    + destruct (Spec.parse_date token) as [d|] eqn:Hd; [|discriminate].
      intros [= <- <-]. now rewrite (parse_dates_try_strict_single _ _ Hd).
  - unfold Spec.parseDateRange.
    change (py ":") with [colon]. rewrite str_in_char.
    destruct (has colon token) eqn:Hc.
    + destruct (Spec.parse_date (Spec.before colon token)) as [s'|] eqn:Hs;
        [|discriminate].
      destruct (Spec.parse_date (Spec.after colon token)) as [e'|] eqn:He;
        [|discriminate].
      rewrite (parse_dates_try_strict_range _ _ _ Hc Hs He).
      now destruct (date_gt s' e').
    + now destruct (Spec.parse_date token).
Qed.

End ParseDates.

(** C4 as stated fails: ["2024-6-1"] is not in the strict YYYY-MM-DD
    form, so the strict reading reports a format error, yet
    [parse_dates] returns normally with 2024-06-01 for both ends.
    In the other direction, a token with two separators fails although
    every piece [split] yields is a date in the strict form and the
    dates are in order. *)
Lemma parse_dates_lenient_counterexample :
  Spec.strict_format (py "2024-6-1") = false
  /\ Spec.parseDateRange (py "2024-6-1") = Spec.DateFormatError
  /\ (forall U : UnicodeData,
        @parse_dates U (py "2024-6-1")
        = ret (mkdate 2024 6 1, mkdate 2024 6 1))
  /\ map Spec.parse_date (split colon (py "2024-06-01:2024-06-02:2024-06-03"))
     = [Some (mkdate 2024 6 1); Some (mkdate 2024 6 2);
        Some (mkdate 2024 6 3)]
  /\ (forall U : UnicodeData,
        @parse_dates U (py "2024-06-01:2024-06-02:2024-06-03")
        = ([Print (py "Error parsing date(s): too many values to unpack (expected 2)")],
           Exited 1)).
Proof. repeat split; reflexivity. Qed.

Lemma parse_dates_failure_witness :
  @parse_dates excerpt_tables (py "2024-06-01:2024-06-05")
  = ret (mkdate 2024 6 1, mkdate 2024 6 5)
  /\ @parse_dates excerpt_tables (py "2024-06-05:2024-06-01")
     = ([Print (py "Error parsing date(s): Start date must be before or equal to end date.")],
        Exited 1).
Proof.
  split.
  - apply (@parse_dates_failure excerpt_tables (py "2024-06-01:2024-06-05")).
    reflexivity.
  - apply (@parse_dates_failure excerpt_tables (py "2024-06-05:2024-06-01")).
    reflexivity.
Defined.

(** * Properties of [get_weather_emoji] *)

Section Emoji.

Context `{UnicodeData}.

Lemma ascii_tolower_idem (c : Z) :
  ascii_tolower (ascii_tolower c) = ascii_tolower c.
Proof.
  unfold ascii_tolower.
  destruct ((65 <=? c) && (c <=? 90)) eqn:E.
  - replace ((65 <=? c + 32) && (c + 32 <=? 90)) with false by lia. done.
  - now rewrite E.
Qed.

Lemma isascii_tolower (s : str) :
  isascii s = true -> isascii (map ascii_tolower s) = true.
Proof.
  unfold isascii. rewrite !forallb_forall. intros Hs c Hc.
  apply in_map_iff in Hc as (c0 & <- & Hc0). specialize (Hs c0 Hc0).
  unfold ascii_tolower. destruct ((65 <=? c0) && (c0 <=? 90)) eqn:E; lia.
Qed.

Lemma map_tolower_idem (s : str) :
  map ascii_tolower (map ascii_tolower s) = map ascii_tolower s.
Proof.
  rewrite map_map. apply map_ext. intros c. apply ascii_tolower_idem.
Qed.

(** Lower-casing twice is lower-casing once: on ASCII strings by the
    code, on the others by the stability of the case mappings. *)
Lemma str_lower_idem_ascii (s : str) :
  isascii s = true -> str_lower (str_lower s) = str_lower s.
Proof.
  intros E. unfold str_lower. rewrite E, isascii_tolower by done.
  apply map_tolower_idem.
Qed.

Lemma str_lower_idem (s : str) :
  lower_stable -> str_lower (str_lower s) = str_lower s.
Proof.
  intros Hst. destruct (isascii s) eqn:E.
  - now apply str_lower_idem_ascii.
  - unfold str_lower at 2 3. rewrite E. now apply Hst.
Qed.

(** On ASCII conditions the symbol does not depend on the case, with
    no assumption on the Unicode data. *)
Lemma ascii_condition_any_case (condition : str) :
  isascii condition = true ->
  get_weather_emoji condition = get_weather_emoji (str_lower condition).
Proof.
  intros E. unfold get_weather_emoji. now rewrite str_lower_idem_ascii.
Qed.

(** The chain of tests is the first-match search over the rule list. *)
Lemma get_weather_emoji_first_match (condition : str) :
  get_weather_emoji condition
  = Spec.first_match Spec.rules (str_lower condition).
Proof.
  unfold get_weather_emoji, Spec.rules, Spec.first_match.
  cbn [existsb]. rewrite !orb_false_r. reflexivity.
Qed.

(** C5, as amended.  The mapping is first-match-wins over the rule
    order clear/sun, partly/cloud, rain, snow, storm/thunder, fog,
    fallback.  A condition whose lower-cased text contains "cloud" and
    neither "clear" nor "sun" gets the partly-cloudy symbol, whether or
    not it also contains "rain"; "Heavy Rain and Thunderstorms" gets the
    rain symbol and "Partly Cloudy" the partly-cloudy symbol. *)
Theorem get_weather_emoji_order (condition : str) :
  get_weather_emoji condition
  = Spec.first_match Spec.rules (str_lower condition)
  /\ (str_in (py "cloud") (str_lower condition) = true ->
      str_in (py "clear") (str_lower condition) = false ->
      str_in (py "sun") (str_lower condition) = false ->
      get_weather_emoji condition = PARTLY_CLOUDY)
  /\ get_weather_emoji (py "Heavy Rain and Thunderstorms") = RAIN
  /\ get_weather_emoji (py "Partly Cloudy") = PARTLY_CLOUDY.
Proof.
  split; [apply get_weather_emoji_first_match|].
  split; [|split; reflexivity].
  intros Hcloud Hclear Hsun. unfold get_weather_emoji.
  rewrite Hclear, Hsun, Hcloud. simpl. now rewrite orb_true_r.
Qed.

(** C9.  The mapping is case-insensitive: a condition and its
    lower-case form get the same symbol. *)
Theorem get_weather_emoji_case_insensitive (condition : str) :
  lower_stable ->
  get_weather_emoji condition = get_weather_emoji (str_lower condition).
Proof.
  intros Hst. unfold get_weather_emoji. now rewrite str_lower_idem.
Qed.

End Emoji.

(** C5 as stated fails: this condition contains both "cloud" and
    "rain", and the sun symbol is returned, because the first rule
    fires before the second. *)
Lemma cloud_and_rain_counterexample :
  str_in (py "cloud") (py "Sunny with cloud and rain") = true
  /\ str_in (py "rain") (py "Sunny with cloud and rain") = true
  /\ (forall U : UnicodeData,
        @get_weather_emoji U (py "Sunny with cloud and rain") = SUN)
  /\ SUN <> PARTLY_CLOUDY.
Proof. repeat split; discriminate. Qed.

Lemma get_weather_emoji_order_witness :
  @get_weather_emoji excerpt_tables (py "Rain, Partially cloudy")
  = PARTLY_CLOUDY.
Proof.
  apply (@get_weather_emoji_order excerpt_tables (py "Rain, Partially cloudy"));
    reflexivity.
Defined.

Lemma excerpt_lower_stable : @lower_stable excerpt_tables.
Proof.
  intros s _. unfold str_lower. simpl.
  destruct (isascii (map ascii_tolower s)); apply map_tolower_idem.
Qed.

Lemma get_weather_emoji_case_insensitive_witness :
  @get_weather_emoji excerpt_tables (py "Partly Cloudy")
  = @get_weather_emoji excerpt_tables
      (@str_lower excerpt_tables (py "Partly Cloudy")).
Proof.
  apply (@get_weather_emoji_case_insensitive excerpt_tables).
  exact excerpt_lower_stable.
Defined.

(** * Properties of [fetch_weather] and [main] *)

Section Main.

Context `{UnicodeData}.

Lemma bind_ret {A B} (a : A) (k : A -> proc B) : bind (ret a) k = k a.
Proof. unfold bind, ret. now destruct (k a). Qed.

Lemma bind_emit {B} (ev : event) (k : unit -> proc B) :
  bind (emit ev) k = (ev :: trace (k tt), result (k tt)).
Proof. unfold bind, emit. now destruct (k tt). Qed.

Lemma bind_exit {A B} (tr : list event) (c : Z) (k : A -> proc B) :
  bind (tr, Exited c) k = (tr, Exited c).
Proof. reflexivity. Qed.

(** What [fetch_weather] does when the server answers with a status
    other than 200. *)
Lemma fetch_weather_not_200 (net : str -> http_result)
    (nation city : str) (s e : date) (key : str) (r : response) :
  net (endpoint ++ (city ++ py "," ++ nation) ++ py "/" ++ isoformat s
       ++ py "/" ++ isoformat e ++ py "?unitGroup=metric&key=" ++ key
       ++ py "&include=days") = Responded r ->
  status_code r <> 200 ->
  fetch_weather net nation city s e key
  = ([HttpGet (endpoint ++ (city ++ py "," ++ nation) ++ py "/"
               ++ isoformat s ++ py "/" ++ isoformat e
               ++ py "?unitGroup=metric&key=" ++ key ++ py "&include=days");
      Print (py "Error fetching weather data: " ++ str_int (status_code r)
             ++ py " - " ++ text r)],
     Exited 1).
Proof.
  intros Hnet Hst. unfold fetch_weather. rewrite bind_emit, Hnet.
  replace (status_code r =? 200) with false by lia. reflexivity.
Qed.

Lemma fetch_weather_200 (net : str -> http_result)
    (nation city : str) (s e : date) (key : str) (r : response)
    (data : json) :
  net (endpoint ++ (city ++ py "," ++ nation) ++ py "/" ++ isoformat s
       ++ py "/" ++ isoformat e ++ py "?unitGroup=metric&key=" ++ key
       ++ py "&include=days") = Responded r ->
  status_code r = 200 ->
  json_of r = inr data ->
  fetch_weather net nation city s e key
  = ([HttpGet (endpoint ++ (city ++ py "," ++ nation) ++ py "/"
               ++ isoformat s ++ py "/" ++ isoformat e
               ++ py "?unitGroup=metric&key=" ++ key ++ py "&include=days")],
     Returned data).
Proof.
  intros Hnet Hst Hjson. unfold fetch_weather.
  rewrite bind_emit, Hnet, Hst, Hjson. reflexivity.
Qed.

Lemma bind_returned {A B} (tr : list event) (a : A) (k : A -> proc B) :
  bind (tr, Returned a) k = (tr ++ trace (k a), result (k a)).
Proof. unfold bind. now destruct (k a). Qed.

(** The events of [fetch_weather]: one request, then at most one line. *)
Lemma fetch_weather_trace (net : str -> http_result)
    (nation city : str) (s e : date) (key : str) :
  exists lines,
    trace (fetch_weather net nation city s e key)
    = HttpGet (endpoint ++ (city ++ py "," ++ nation) ++ py "/"
               ++ isoformat s ++ py "/" ++ isoformat e
               ++ py "?unitGroup=metric&key=" ++ key ++ py "&include=days")
      :: map Print lines.
Proof.
  unfold fetch_weather. rewrite bind_emit. cbn [trace fst].
  match goal with |- context [net ?u] => destruct (net u) as [msg|r] end.
  - now exists [py "Request failed: " ++ msg].
  - destruct (negb (status_code r =? 200)).
    + now eexists [_].
    + destruct (json_of r) as [msg|data]; [now eexists [_]|now exists []].
Qed.

Lemma trace_bind {A B} (p : proc A) (k : A -> proc B) :
  trace (bind p k)
  = trace p ++ match result p with
               | Returned a => trace (k a)
               | _ => []
               end.
Proof.
  destruct p as [tr [a|c|e]]; simpl; [|now rewrite app_nil_r..].
  now destruct (k a).
Qed.

Lemma requested_app (t1 t2 : list event) :
  requested (t1 ++ t2) = requested t1 ++ requested t2.
Proof. unfold requested. now rewrite flat_map_app. Qed.

Lemma requested_prints (lines : list str) : requested (map Print lines) = [].
Proof. induction lines; [done|]. simpl. done. Qed.

Lemma In_requested (url : str) (tr : list event) :
  In (HttpGet url) tr -> In url (requested tr).
Proof.
  unfold requested. intros Hin. apply in_flat_map.
  exists (HttpGet url). split; [done|]. now left.
Qed.

Lemma offline_bind {A B} (p : proc A) (k : A -> proc B) :
  offline p -> (forall a, offline (k a)) -> offline (bind p k).
Proof.
  unfold offline. intros Hp Hk. rewrite trace_bind, requested_app, Hp.
  destruct (result p); [apply Hk|done..].
Qed.

Lemma offline_print (line : str) : offline (print line).
Proof. reflexivity. Qed.

Lemma offline_exit {A} (c : Z) : offline (@sys_exit A c).
Proof. reflexivity. Qed.

Lemma offline_lift {A} (r : res A) : offline (lift r).
Proof. now destruct r. Qed.

Lemma offline_table (hs : list str) (rows : list (list str)) :
  offline (emit (PrintTable hs rows)).
Proof. reflexivity. Qed.

Lemma offline_parse_dates (token : str) : offline (parse_dates token).
Proof. rewrite parse_dates_of_try. now destruct (parse_dates_try token). Qed.

Lemma dict_get_lookup (key : str) (default : json)
    (items : list (str * json)) :
  dict_get key default items
  = match Spec.lookup key items with Some v => v | None => default end.
Proof.
  induction items as [|[k v] items IH]; [done|].
  simpl. now destruct (str_eqb k key).
Qed.

Lemma days_absent_or_empty_get (items : list (str * json)) :
  Spec.days_absent_or_empty items = true ->
  dict_get (py "days") (JList []) items = JList [].
Proof.
  unfold Spec.days_absent_or_empty. rewrite dict_get_lookup.
  destruct (Spec.lookup (py "days") items) as [[| | | | |[|]|]|]; done.
Qed.

(** A run that sends a request has parsed its dates and found a key;
    the request is the one of [fetch_weather], and the rest of the run
    is what follows the call in [main]. *)
Lemma main_request (w : world) (url : str) :
  In (HttpGet url) (trace (main w)) ->
  exists s e api_key,
    parse_dates (args_date w) = ret (s, e)
    /\ environ_api_key w = Some api_key
    /\ api_key <> []
    /\ url = endpoint ++ (args_city w ++ py "," ++ args_nation w) ++ py "/"
             ++ isoformat s ++ py "/" ++ isoformat e
             ++ py "?unitGroup=metric&key=" ++ api_key ++ py "&include=days".
Proof.
  intros Hin. apply In_requested in Hin. revert Hin.
  unfold main. rewrite parse_dates_of_try.
  destruct (parse_dates_try (args_date w)) as [[s e]|err]; [|intros []].
  change ([], Returned (s, e)) with (ret (s, e)). rewrite bind_ret.
  destruct (environ_api_key w) as [[|c key]|] eqn:Hkey; [intros []| |intros []].
  rewrite trace_bind, requested_app.
  destruct (fetch_weather_trace (requests_get w) (args_nation w) (args_city w)
              s e (c :: key)) as [lines Htr].
  rewrite Htr. cbn [requested flat_map app]. fold (requested (map Print lines)).
  rewrite requested_prints. cbn [app].
  match goal with
  | |- In _ (_ :: ?rest) -> _ => assert (Hrest : rest = [])
  end.
  { destruct (result _); [|done..].
    apply offline_bind; [apply offline_print|]. intros _.
    apply offline_bind; [apply offline_lift|]. intros days.
    destruct (negb (truthy days)).
    - apply offline_bind; [apply offline_print|]. intros _. apply offline_exit.
    - apply offline_bind; [apply offline_lift|]. intros items.
      apply offline_bind; [apply offline_lift|]. intros table.
      apply offline_table. }
  rewrite Hrest. intros [<-|[]].
  exists s, e, (c :: key). repeat split; done.
Qed.

(** C7.  When the provider answers with a status other than 200, the
    run prints a diagnostic with the status code and the response
    body, ends with exit code 1, and prints no table. *)
Theorem provider_error_is_fatal (w : world) (url : str) (r : response) :
  In (HttpGet url) (trace (main w)) ->
  requests_get w url = Responded r ->
  status_code r <> 200 ->
  main w
  = ([HttpGet url;
      Print (py "Error fetching weather data: " ++ str_int (status_code r)
             ++ py " - " ++ text r)],
     Exited 1)
  /\ exit_code (main w) <> 0
  /\ existsb is_table (trace (main w)) = false.
Proof.
  intros Hin Hnet Hst.
  destruct (main_request w url Hin)
    as (s & e & key & Hparse & Hkey & Hne & Hurl).
  assert (Hmain : main w
                  = ([HttpGet url; Print (py "Error fetching weather data: "
                                          ++ str_int (status_code r)
                                          ++ py " - " ++ text r)],
                     Exited 1)).
  { subst url. unfold main. rewrite Hparse, bind_ret, Hkey.
    destruct key as [|c key]; [done|].
    now rewrite (fetch_weather_not_200 _ _ _ _ _ _ r Hnet Hst). }
  rewrite Hmain. repeat split; done.
Qed.

(** C6.  When the provider's answer has no [days] entry or an empty
    list of days, the run prints no table, prints the notice that no
    data is available, and ends with exit code 0. *)
Theorem no_data_is_success (w : world) (url : str) (r : response)
    (items : list (str * json)) :
  In (HttpGet url) (trace (main w)) ->
  requests_get w url = Responded r ->
  status_code r = 200 ->
  json_of r = inr (JDict items) ->
  Spec.days_absent_or_empty items = true ->
  (exists banner,
     main w = ([HttpGet url; Print banner; Print no_data_notice], Exited 0))
  /\ exit_code (main w) = 0
  /\ existsb is_table (trace (main w)) = false.
Proof.
  intros Hin Hnet Hst Hjson Hdays.
  destruct (main_request w url Hin)
    as (s & e & key & Hparse & Hkey & Hne & Hurl).
  assert (Hmain : exists banner,
             main w = ([HttpGet url; Print banner; Print no_data_notice],
                       Exited 0)).
  { subst url. unfold main. rewrite Hparse, bind_ret, Hkey.
    destruct key as [|c key]; [done|].
    rewrite (fetch_weather_200 _ _ _ _ _ _ r (JDict items) Hnet Hst Hjson).
    rewrite bind_returned. unfold print at 1. rewrite bind_emit.
    cbn [lift get]. rewrite bind_ret, days_absent_or_empty_get by done.
    eexists. reflexivity. }
  destruct Hmain as [banner Hmain]. rewrite Hmain.
  split; [now exists banner|]. split; reflexivity.
Qed.


End Main.

(** * Decimal numerals and ISO dates *)

Section IsoDates.

Lemma digits_acc_step (f : nat) (n : Z) (acc : str) :
  digits_acc (S f) n acc
  = if n <? 10 then (48 + n mod 10) :: acc
    else digits_acc f (n / 10) ((48 + n mod 10) :: acc).
Proof. reflexivity. Qed.

Lemma log2_fuel (n k : Z) :
  0 <= k -> 2 ^ k <= n -> (Z.to_nat k <= Z.to_nat (Z.log2 n))%nat.
Proof.
  intros Hk Hn. apply Z2Nat.inj_le; [lia|apply Z.log2_nonneg|].
  apply Z.log2_le_pow2; lia.
Qed.

Lemma str_int_digits (n : Z) :
  0 <= n <= 9999 ->
  str_int n
  = if n <? 10 then [48 + n]
    else if n <? 100 then [48 + n / 10; 48 + n mod 10]
    else if n <? 1000 then [48 + n / 100; 48 + n / 10 mod 10; 48 + n mod 10]
    else [48 + n / 1000; 48 + n / 100 mod 10; 48 + n / 10 mod 10; 48 + n mod 10].
Proof.
  intros Hn. unfold str_int, str_nonneg.
  replace (n <? 0) with false by lia.
  destruct (n <? 10) eqn:E1.
  { rewrite digits_acc_step, E1. f_equal. f_equal. Z.div_mod_to_equations; lia. }
  assert (H3 : (3 <= Z.to_nat (Z.log2 n))%nat) by (apply (log2_fuel n 3); lia).
  destruct (Z.to_nat (Z.log2 n)) as [|[|[|f]]]; try lia.
  rewrite digits_acc_step, E1.
  destruct (n <? 100) eqn:E2.
  { rewrite digits_acc_step. replace (n / 10 <? 10) with true by (Z.div_mod_to_equations; lia).
    repeat f_equal; Z.div_mod_to_equations; lia. }
  rewrite digits_acc_step. replace (n / 10 <? 10) with false by (Z.div_mod_to_equations; lia).
  rewrite Z.div_div by lia. change (10 * 10) with 100.
  destruct (n <? 1000) eqn:E3.
  { rewrite digits_acc_step. replace (n / 100 <? 10) with true by (Z.div_mod_to_equations; lia).
    repeat f_equal; Z.div_mod_to_equations; lia. }
  rewrite digits_acc_step. replace (n / 100 <? 10) with false by (Z.div_mod_to_equations; lia).
  rewrite Z.div_div by lia. change (100 * 10) with 1000.
  rewrite digits_acc_step. replace (n / 1000 <? 10) with true by (Z.div_mod_to_equations; lia).
  repeat f_equal; Z.div_mod_to_equations; lia.
Qed.

Lemma zero_padded_4 (n : Z) :
  0 <= n <= 9999 ->
  zero_padded 4 n
  = [48 + n / 1000; 48 + n / 100 mod 10; 48 + n / 10 mod 10; 48 + n mod 10].
Proof.
  intros Hn. unfold zero_padded. rewrite str_int_digits by done.
  destruct (n <? 10) eqn:E1; [|destruct (n <? 100) eqn:E2;
                                [|destruct (n <? 1000) eqn:E3]];
    simpl; repeat f_equal; Z.div_mod_to_equations; lia.
Qed.

Lemma zero_padded_2 (n : Z) :
  0 <= n <= 99 -> zero_padded 2 n = [48 + n / 10; 48 + n mod 10].
Proof.
  intros Hn. unfold zero_padded. rewrite str_int_digits by lia.
  destruct (n <? 10) eqn:E1; [|replace (n <? 100) with true by lia];
    simpl; repeat f_equal; Z.div_mod_to_equations; lia.
Qed.

(** [isoformat] writes a date in the strict form, and the strict
    reading gets the date back. *)
Lemma parse_date_isoformat (d : date) :
  Spec.valid_date d = true -> Spec.parse_date (isoformat d) = Some d.
Proof.
  intros Hv. pose proof Hv as Hv'. unfold Spec.valid_date in Hv'.
  pose proof (days_in_month_le (year d) (month d)) as Hdim.
  unfold isoformat.
  rewrite zero_padded_4 by lia. rewrite !zero_padded_2 by lia.
  cbn [app py map list_ascii_of_string].
  unfold Spec.parse_date.
  assert (Hy : Spec.number [48 + year d / 1000; 48 + year d / 100 mod 10;
                            48 + year d / 10 mod 10; 48 + year d mod 10]
               = year d)
    by (unfold Spec.number; cbn [fold_left]; Z.div_mod_to_equations; lia).
  assert (Hm : Spec.number [48 + month d / 10; 48 + month d mod 10] = month d)
    by (unfold Spec.number; cbn [fold_left]; Z.div_mod_to_equations; lia).
  assert (Hd : Spec.number [48 + day d / 10; 48 + day d mod 10] = day d)
    by (unfold Spec.number; cbn [fold_left]; Z.div_mod_to_equations; lia).
  rewrite Hy, Hm, Hd.
  replace (mkdate (year d) (month d) (day d)) with d by now destruct d.
  rewrite Hv, andb_true_r.
  assert (Hs : Spec.strict_format
                 [48 + year d / 1000; 48 + year d / 100 mod 10;
                  48 + year d / 10 mod 10; 48 + year d mod 10;
                  Z.of_N (N_of_ascii "-");
                  48 + month d / 10; 48 + month d mod 10;
                  Z.of_N (N_of_ascii "-");
                  48 + day d / 10; 48 + day d mod 10] = true).
  { unfold Spec.strict_format. cbn [forallb].
    unfold Spec.ascii_digit, in_range, dash.
    change (Z.of_N (N_of_ascii "-")) with 45.
    repeat (apply andb_true_iff; split); try reflexivity;
      Z.div_mod_to_equations; lia. }
  now rewrite Hs.
Qed.

Lemma fold_number (ds : list Z) (a : Z) :
  fold_left (fun acc c => 10 * acc + (c - 48)) ds a
  = a * 10 ^ len ds + Spec.number ds.
Proof.
  unfold Spec.number. revert a. induction ds as [|c ds IH]; intros a.
  - simpl. unfold len. simpl. lia.
  - cbn [fold_left]. rewrite IH, (IH (10 * 0 + (c - 48))).
    unfold len. cbn [length]. rewrite Nat2Z.inj_succ, Z.pow_succ_r by lia. lia.
Qed.

Lemma number_cons (c : Z) (ds : list Z) :
  Spec.number (c :: ds) = (c - 48) * 10 ^ len ds + Spec.number ds.
Proof. unfold Spec.number at 1. cbn [fold_left]. rewrite fold_number. lia. Qed.

(** The digits written by [digits_acc] are decimal digits and read back
    as the number, when the fuel covers the binary length. *)
Lemma digits_acc_number (fuel : nat) (n : Z) (acc : str) :
  0 <= n < 2 ^ Z.of_nat fuel ->
  forallb Spec.ascii_digit acc = true ->
  forallb Spec.ascii_digit (digits_acc fuel n acc) = true
  /\ Spec.number (digits_acc fuel n acc) = n * 10 ^ len acc + Spec.number acc.
Proof.
  revert n acc. induction fuel as [|fuel IH]; intros n acc Hn Hacc.
  - simpl in *. split; [done|]. assert (n = 0) as -> by lia. lia.
  - rewrite Nat2Z.inj_succ, Z.pow_succ_r in Hn by lia.
    rewrite digits_acc_step.
    assert (Hd : Spec.ascii_digit (48 + n mod 10) = true).
    { unfold Spec.ascii_digit, in_range. Z.div_mod_to_equations; lia. }
    destruct (n <? 10) eqn:E.
    + split; [cbn [forallb]; now rewrite Hd|].
      rewrite number_cons.
      replace (n mod 10) with n by (Z.div_mod_to_equations; lia). lia.
    + destruct (IH (n / 10) ((48 + n mod 10) :: acc)) as [H1 H2].
      * Z.div_mod_to_equations; lia.
      * cbn [forallb]. now rewrite Hd.
      * split; [done|]. rewrite H2, number_cons.
        unfold len. cbn [length]. rewrite Nat2Z.inj_succ, Z.pow_succ_r by lia.
        rewrite (Z.div_mod n 10) at 3 by lia. lia.
Qed.

(** [str(n)] of a non-negative integer is its decimal numeral. *)
Lemma str_int_number (n : Z) :
  0 <= n ->
  forallb Spec.ascii_digit (str_int n) = true
  /\ Spec.number (str_int n) = n.
Proof.
  intros Hn. unfold str_int, str_nonneg. replace (n <? 0) with false by lia.
  destruct (digits_acc_number (S (Z.to_nat (Z.log2 n))) n []) as [H1 H2].
  - split; [lia|]. rewrite Nat2Z.inj_succ, Z2Nat.id by apply Z.log2_nonneg.
    destruct (Z.eq_dec n 0) as [->|]; [done|]. apply Z.log2_spec. lia.
  - done.
  - split; [done|]. rewrite H2. unfold len, Spec.number. simpl. lia.
Qed.

End IsoDates.

(** * The request sent by [fetch_weather] *)

Section Request.




End Request.



(** * Sample evaluations *)

(** The header cells and the symbol cells, measured as the package
    measures them: an emoji followed by variation selector 16 takes
    two columns. *)
Example wcswidth_headers :
  map (@wcswidth excerpt_tables) headers = [4; 7; 15; 9; 14].
Proof. reflexivity. Qed.

Example wcswidth_symbols :
  map (@wcswidth excerpt_tables) [SUN; PARTLY_CLOUDY; RAIN; SNOW; STORM; FOG; RAINBOW]
  = [2; 2; 2; 2; 2; 2; 2].
Proof. reflexivity. Qed.

(** A control character makes the measure -1, and the padding one
    column longer than the target. *)
Example pad_string_control_character :
  @wcswidth excerpt_tables [97; 10; 98] = -1
  /\ @pad_string excerpt_tables [97; 10; 98] 3 = [97; 10; 98; 32; 32; 32; 32].
Proof. split; reflexivity. Qed.

(** [strptime] on text outside the strict form. *)
Example strptime_lenient :
  @strptime excerpt_tables (py "2024-6-1") = Ok (mkdate 2024 6 1)
  /\ @strptime excerpt_tables (py "2024-06- 1") = Ok (mkdate 2024 6 1)
  /\ @strptime excerpt_tables ([0xFF12; 0xFF10; 0xFF12; 0xFF14] ++ py "-06-01")
     = Ok (mkdate 2024 6 1)
  /\ @strptime excerpt_tables (py "2024-02-30")
     = Raise (ValueError (py "day is out of range for month"))
  /\ @strptime excerpt_tables (py "06-01-2024")
     = Raise (ValueError
                (py "time data '06-01-2024' does not match format '%Y-%m-%d'"))
  /\ @strptime excerpt_tables (py "2024-12-311")
     = Raise (ValueError (py "unconverted data remains: 1")).
Proof. repeat split; reflexivity. Qed.

(** A full run: one day of data gives one row of five padded cells. *)
Example main_one_day :
  @main excerpt_tables
    (sample_world (Some (py "KEY"))
       (Responded
          {| status_code := 200; text := [];
             json_of :=
               inr (JDict [(py "days",
                            JList [JDict [(py "datetime", JStr (py "2024-06-01"));
                                          (py "tempmax", JFloat (py "25.3"));
                                          (py "tempmin", JInt 12);
                                          (py "precipprob", JInt 0);
                                          (py "conditions", JStr (py "Clear"))]])]) |}))
  = ([HttpGet (endpoint ++ py "Paris,FR/2024-06-01/2024-06-05?unitGroup=metric&key=KEY&include=days");
      Print ([10; 0x1F4CD] ++ py " Paris (FR) " ++ [0x2014]
             ++ py " 2024-06-01 to 2024-06-05" ++ [10]);
      PrintTable headers
        [[py "2024-06-01";
          SUN ++ py " Clear" ++ py "            ";
          py "25.3" ++ degree ++ py " / 12" ++ degree ++ py "    ";
          py "0%      ";
          py "N/A km/h    "]]],
     Returned tt).
Proof. reflexivity. Qed.

(** * Runs of [main] on the sample worlds *)

Lemma provider_error_is_fatal_witness :
  exit_code (@main excerpt_tables (sample_world (Some (py "KEY")) answer_404))
  <> 0
  /\ existsb is_table
       (trace (@main excerpt_tables
                 (sample_world (Some (py "KEY")) answer_404))) = false.
Proof.
  edestruct (@provider_error_is_fatal excerpt_tables
               (sample_world (Some (py "KEY")) answer_404))
    as (_ & Hcode & Htable).
  - vm_compute. left. reflexivity.
  - reflexivity.
  - vm_compute. discriminate.
  - split; [exact Hcode|exact Htable].
Defined.

Lemma no_data_is_success_witness :
  exit_code (@main excerpt_tables
               (sample_world (Some (py "KEY")) answer_no_days)) = 0
  /\ existsb is_table
       (trace (@main excerpt_tables
                 (sample_world (Some (py "KEY")) answer_no_days))) = false.
Proof.
  edestruct (@no_data_is_success excerpt_tables
               (sample_world (Some (py "KEY")) answer_no_days))
    as (_ & Hcode & Htable).
  - vm_compute. left. reflexivity.
  - reflexivity.
  - reflexivity.
  - reflexivity.
  - reflexivity.
  - split; [exact Hcode|exact Htable].
Defined.


(** * Further properties of [pad_string] *)

Section PadStringBounds.

Context `{UnicodeData}.

Lemma wcwidth_range (c : Z) : -1 <= wcwidth c <= 2.
Proof.
  unfold wcwidth.
  repeat match goal with |- context [if ?b then _ else _] => destruct b end;
    lia.
Qed.

(** Every pass of the measuring loop adds between zero and two columns
    for each character it consumes, unless a control character ends
    the measure with -1. *)
Lemma wcswidth_loop_bounds (n : nat) :
  forall (pwcs rest : str) (idx : Z) (st : wstate),
    (length rest <= n)%nat ->
    wcswidth_loop pwcs rest idx st = -1
    \/ (total_width st + (if conjunct_pending st then 1 else 0)
        <= wcswidth_loop pwcs rest idx st
        <= total_width st + (if conjunct_pending st then 1 else 0)
           + 2 * len rest).
Proof.
  induction n as [|n IH]; intros pwcs rest idx st Hlen.
  - destruct rest; [|simpl in Hlen; lia]. right. simpl. unfold len. simpl.
    destruct (conjunct_pending st); lia.
  - destruct rest as [|ucs rest1].
    { right. simpl. unfold len. simpl. destruct (conjunct_pending st); lia. }
    pose proof (wcwidth_range ucs) as Hw.
    cbn [wcswidth_loop]. cbv zeta.
    repeat match goal with
           | |- context [if ?b then _ else _] =>
               lazymatch b with
               | conjunct_pending _ => fail
               | VS16_NARROW_TO_WIDE _ => fail
               | _ => destruct b eqn:?
               end
           | |- context [match ?l with [] => _ | _ :: _ => _ end] =>
               destruct l
           end;
      try (left; reflexivity);
      match goal with
      | |- context [wcswidth_loop ?p ?r ?i ?s] =>
          destruct (IH p r i s) as [->|Hb];
          [simpl in *; lia | left; reflexivity |]
      end;
      right; revert Hb; unfold len; cbn [length total_width conjunct_pending];
      destruct (conjunct_pending st);
      try destruct (VS16_NARROW_TO_WIDE _); lia.
Qed.

Lemma wcswidth_bounds (s : str) : -1 <= wcswidth s <= 2 * len s.
Proof.
  unfold wcswidth. pose proof (len_nonneg s).
  destruct (isascii s && forallb ascii_printable s); [lia|].
  destruct (wcswidth_loop_bounds (length s) s s 0 wstate_init) as [->|Hb];
    [done|lia|simpl in Hb; lia].
Qed.

(** X1.  The padding of any string: never more than [width + 1] blanks, and
    at least [width] minus two columns per character. *)
Theorem pad_string_length_bounds (s : str) (width : Z) :
  -1 <= wcswidth s <= 2 * len s
  /\ len s + Z.max 0 (width - 2 * len s) <= len (pad_string s width)
  /\ len (pad_string s width) <= len s + Z.max 0 (width + 1).
Proof.
  pose proof (wcswidth_bounds s) as Hb. split; [done|].
  unfold pad_string. rewrite len_app, str_mul_space, len_replicate. lia.
Qed.

End PadStringBounds.

Section PadStringMore.

Context `{UnicodeData}.

Lemma virama_set_ascii (c : Z) : c < 128 -> _ISC_VIRAMA_SET c = false.
Proof. intros Hc. unfold _ISC_VIRAMA_SET. cbn [existsb]. lia. Qed.

(** In an ASCII string the first control character ends the measure. *)
Lemma wcswidth_loop_ascii_control (pwcs rest : str) :
  Forall (fun c => c < 128) rest ->
  Exists (fun c => 1 <= c < 32 \/ c = 127) rest ->
  forall idx st,
    last_was_virama st = false ->
    wcswidth_loop pwcs rest idx st = -1.
Proof.
  intros Hascii. induction Hascii as [|c rest1 Hc Hrest IH];
    intros Hex idx st Hv; [inversion Hex|].
  assert (Hnext : Exists (fun c => 1 <= c < 32 \/ c = 127) rest1 ->
                  forall st', last_was_virama st' = false ->
                  wcswidth_loop pwcs rest1 (idx + 1) st' = -1)
    by (intros Hex' st' Hv'; now apply IH).
  cbn [wcswidth_loop]. cbv zeta.
  replace (c =? 0x200D) with false by lia.
  replace (c =? 0xFE0F) with false by lia.
  replace (0xFFFF <? c) with false by lia.
  rewrite Hv. cbn [andb].
  apply Exists_cons in Hex as [Hctl|Hex].
  - assert (wcwidth c = -1) as ->; [|reflexivity].
    unfold wcwidth.
    replace ((32 <=? c) && (c <? 0x7f)) with false by lia.
    replace ((negb (c =? 0) && (c <? 32)) || ((0x07F <=? c) && (c <? 0x0A0)))
      with true by lia.
    reflexivity.
  - destruct (wcwidth c <? 0); [reflexivity|].
    destruct (0 <? wcwidth c); [now apply Hnext|].
    destruct ((0 <=? last_measured_idx st) && CATEGORY_MC c);
      [now apply Hnext|].
    apply Hnext; [done|]. now apply virama_set_ascii.
Qed.

Lemma control_not_printable (s : str) :
  Exists (fun c => 1 <= c < 32 \/ c = 127) s ->
  forallb ascii_printable s = false.
Proof.
  intros Hex. induction Hex as [c s Hc|c s Hex IH]; cbn [forallb].
  - unfold ascii_printable. replace ((32 <=? c) && (c <? 127)) with false by lia.
    reflexivity.
  - rewrite IH. apply andb_false_r.
Qed.

(** X2.  A tab, a newline or another ASCII control character in an ASCII
    string makes its measure -1, so the string is padded with one blank
    more than the target width. *)
Theorem pad_string_control_ascii (s : str) (width : Z) :
  Forall (fun c => c < 128) s ->
  Exists (fun c => 1 <= c < 32 \/ c = 127) s ->
  wcswidth s = -1
  /\ pad_string s width = s ++ replicate (Z.to_nat (width + 1)) space.
Proof.
  intros Hascii Hctl.
  assert (Hw : wcswidth s = -1).
  { unfold wcswidth. rewrite control_not_printable, andb_false_r by done.
    now apply wcswidth_loop_ascii_control. }
  split; [done|].
  unfold pad_string. rewrite Hw, str_mul_space. do 2 f_equal. lia.
Qed.

Lemma pad_string_narrow (s : str) (w : Z) :
  tables_consistent -> Forall single_width s ->
  pad_string s w = s ++ replicate (Z.to_nat (w - len s)) space
  /\ Forall single_width (pad_string s w).
Proof.
  intros Ht Hs.
  assert (Hpad : pad_string s w = s ++ replicate (Z.to_nat (w - len s)) space).
  { unfold pad_string. rewrite (wcswidth_narrow s Ht Hs), str_mul_space.
    do 2 f_equal. lia. }
  split; [done|]. rewrite Hpad. apply Forall_app. split; [done|].
  apply Forall_replicate. exact wcwidth_space.
Qed.

(** X3.  Padding twice is padding once to the larger width: on strings of
    single-width characters a padded cell can be padded again without
    harm. *)
Theorem pad_string_twice (s : str) (w1 w2 : Z) :
  tables_consistent -> Forall single_width s ->
  pad_string (pad_string s w1) w2 = pad_string s (Z.max w1 w2)
  /\ pad_string (pad_string s w1) w1 = pad_string s w1.
Proof.
  intros Ht Hs.
  assert (Hgen : forall a b,
             pad_string (pad_string s a) b = pad_string s (Z.max a b)).
  { intros a b.
    destruct (pad_string_narrow s a Ht Hs) as [Ha Hna].
    destruct (pad_string_narrow (pad_string s a) b Ht Hna) as [Hb _].
    destruct (pad_string_narrow s (Z.max a b) Ht Hs) as [Hm _].
    rewrite Hb, Hm, Ha, len_app, len_replicate, <- app_assoc.
    rewrite <- replicate_add. do 2 f_equal. pose proof (len_nonneg s). lia. }
  split; [apply Hgen|]. rewrite Hgen. f_equal. lia.
Qed.

End PadStringMore.

Lemma pad_string_control_ascii_witness :
  @wcswidth excerpt_tables (py "Rain" ++ [9] ++ py "later") = -1
  /\ @pad_string excerpt_tables (py "Rain" ++ [9] ++ py "later") 12
     = (py "Rain" ++ [9] ++ py "later") ++ replicate (Z.to_nat (12 + 1)) space.
Proof.
  apply (@pad_string_control_ascii excerpt_tables).
  - repeat constructor.
  - do 4 apply Exists_cons_tl. apply Exists_cons_hd. lia.
Defined.

Lemma pad_string_twice_witness :
  @pad_string excerpt_tables (@pad_string excerpt_tables (py "Paris") 8) 12
  = @pad_string excerpt_tables (py "Paris") (Z.max 8 12)
  /\ @pad_string excerpt_tables (@pad_string excerpt_tables (py "Paris") 8) 8
     = @pad_string excerpt_tables (py "Paris") 8.
Proof.
  apply (@pad_string_twice excerpt_tables (py "Paris") 8 12).
  - exact excerpt_tables_consistent.
  - repeat constructor.
Defined.

(** * Further properties of [parse_dates] *)

Section ParseDatesMore.

Context `{UnicodeData}.

(** ** Inversion of the matcher *)

Lemma re_run_cat {A} (r1 r2 : regex) (s : str) (g : groupdict)
    (k : str -> groupdict -> option A) :
  re_run (Cat r1 r2) s g k = re_run r1 s g (fun s' g' => re_run r2 s' g' k).
Proof. reflexivity. Qed.

Lemma re_run_group {A} (name : string) (r : regex) (s : str) (g : groupdict)
    (k : str -> groupdict -> option A) :
  re_run (Group name r) s g k
  = re_run r s g
      (fun s' g' => k s' ((name, take (length s - length s') s) :: g')).
Proof. reflexivity. Qed.

Lemma re_run_lit {A} (c : Z) (s : str) (g : groupdict)
    (k : str -> groupdict -> option A) (a : A) :
  re_run (Lit c) s g k = Some a -> exists s', s = c :: s' /\ k s' g = Some a.
Proof.
  destruct s as [|x s']; [discriminate|]. cbn [re_run].
  destruct (Z.eqb_spec x c) as [->|]; [|discriminate]. now exists s'.
Qed.

Lemma re_run_digit {A} (s : str) (g : groupdict)
    (k : str -> groupdict -> option A) (a : A) :
  re_run Digit s g k = Some a ->
  exists x s', s = x :: s' /\ is_decimal x = true /\ k s' g = Some a.
Proof.
  destruct s as [|x s']; [discriminate|]. cbn [re_run].
  destruct (is_decimal x) eqn:E; [|discriminate]. now exists x, s'.
Qed.

Lemma re_run_range {A} (lo hi : Z) (s : str) (g : groupdict)
    (k : str -> groupdict -> option A) (a : A) :
  re_run (Range lo hi) s g k = Some a ->
  exists x s', s = x :: s' /\ in_range lo hi x = true /\ k s' g = Some a.
Proof.
  destruct s as [|x s']; [discriminate|]. cbn [re_run].
  destruct (in_range lo hi x) eqn:E; [|discriminate]. now exists x, s'.
Qed.

Lemma re_run_alt {A} (r1 r2 : regex) (s : str) (g : groupdict)
    (k : str -> groupdict -> option A) (a : A) :
  re_run (Alt r1 r2) s g k = Some a ->
  re_run r1 s g k = Some a \/ re_run r2 s g k = Some a.
Proof.
  cbn [re_run]. destruct (re_run r1 s g k); [now left|now right].
Qed.

Lemma take_consumed (p rest : str) :
  take (length (p ++ rest) - length rest) (p ++ rest) = p.
Proof.
  rewrite length_app. replace (length p + length rest - length rest)%nat
    with (length p) by lia.
  now rewrite take_app_length.
Qed.

Lemma take_consumed_1 (a : Z) (rest : str) :
  take (length (a :: rest) - length rest) (a :: rest) = [a].
Proof. apply (take_consumed [a]). Qed.

Lemma take_consumed_2 (a b : Z) (rest : str) :
  take (length (a :: b :: rest) - length rest) (a :: b :: rest) = [a; b].
Proof. apply (take_consumed [a; b]). Qed.

Lemma take_consumed_4 (a b c d : Z) (rest : str) :
  take (length (a :: b :: c :: d :: rest) - length rest)
    (a :: b :: c :: d :: rest) = [a; b; c; d].
Proof. apply (take_consumed [a; b; c; d]). Qed.

(** One step of inversion, whatever the head of the expression is. *)
Ltac re_inv H :=
  first
    [ rewrite re_run_cat in H
    | rewrite re_run_group in H
    | let s' := fresh "s" in
      apply re_run_lit in H as (s' & -> & H)
    | let x := fresh "x" in
      let s' := fresh "s" in
      let Hx := fresh "Hx" in
      apply re_run_digit in H as (x & s' & -> & Hx & H)
    | let x := fresh "x" in
      let s' := fresh "s" in
      let Hx := fresh "Hx" in
      apply re_run_range in H as (x & s' & -> & Hx & H) ].

Ltac use_digits :=
  cbn [forallb];
  repeat match goal with
         | Hd : is_decimal _ = true |- _ => rewrite Hd; clear Hd
         end;
  reflexivity.

Lemma re_Y_inv {A} (s : str) (g : groupdict)
    (k : str -> groupdict -> option A) (a : A) :
  re_run re_Y s g k = Some a ->
  exists y1 y2 y3 y4 s',
    s = [y1; y2; y3; y4] ++ s'
    /\ forallb is_decimal [y1; y2; y3; y4] = true
    /\ k s' (("Y"%string, [y1; y2; y3; y4]) :: g) = Some a.
Proof.
  intros Hr. unfold re_Y in Hr. repeat re_inv Hr.
  rewrite take_consumed_4 in Hr.
  match type of Hr with
  | k ?s' ((_, [?a; ?b; ?c; ?d]) :: _) = _ => exists a, b, c, d, s'
  end.
  split; [reflexivity|]. split; [use_digits|exact Hr].
Qed.

Lemma re_m_inv {A} (s : str) (g : groupdict)
    (k : str -> groupdict -> option A) (a : A) :
  re_run re_m s g k = Some a ->
  exists M s',
    s = M ++ s'
    /\ (1 <= length M <= 2)%nat
    /\ forallb Spec.ascii_digit M = true
    /\ 1 <= Spec.number M <= 12
    /\ k s' (("m"%string, M) :: g) = Some a.
Proof.
  intros Hr. unfold re_m, chr, rng in Hr. re_inv Hr.
  apply re_run_alt in Hr as [Hr|Hr]; [|apply re_run_alt in Hr as [Hr|Hr]];
    repeat re_inv Hr;
    first [rewrite take_consumed_2 in Hr | rewrite take_consumed_1 in Hr];
    match type of Hr with k ?s' ((_, ?M) :: _) = _ => exists M, s' end;
    (split; [reflexivity|]);
    (split; [cbn; lia|]); (split; [|split; [|exact Hr]]);
    unfold Spec.number, Spec.ascii_digit, in_range in *;
    cbn [forallb fold_left]; lia.
Qed.

Lemma re_d_inv {A} (s : str) (g : groupdict)
    (k : str -> groupdict -> option A) (a : A) :
  re_run re_d s g k = Some a ->
  exists D s',
    s = D ++ s'
    /\ (1 <= length D <= 2)%nat
    /\ k s' (("d"%string, D) :: g) = Some a.
Proof.
  intros Hr. unfold re_d, chr, rng in Hr. re_inv Hr.
  apply re_run_alt in Hr as [Hr|Hr];
    [|apply re_run_alt in Hr as [Hr|Hr];
      [|apply re_run_alt in Hr as [Hr|Hr];
        [|apply re_run_alt in Hr as [Hr|Hr]]]];
    repeat re_inv Hr;
    first [rewrite take_consumed_2 in Hr | rewrite take_consumed_1 in Hr];
    match type of Hr with k ?s' ((_, ?D) :: _) = _ => exists D, s' end;
    (split; [reflexivity|]);
    (split; [cbn; lia|exact Hr]).
Qed.

(** What a match of the whole pattern looks like. *)
Lemma re_match_inv (t rest : str) (g : groupdict) :
  re_match format_regex t = Some (rest, g) ->
  exists y1 y2 y3 y4 M D,
    t = [y1; y2; y3; y4] ++ dash :: M ++ dash :: D ++ rest
    /\ forallb is_decimal [y1; y2; y3; y4] = true
    /\ (1 <= length M <= 2)%nat
    /\ forallb Spec.ascii_digit M = true
    /\ 1 <= Spec.number M <= 12
    /\ (1 <= length D <= 2)%nat
    /\ g = [("d"%string, D); ("m"%string, M); ("Y"%string, [y1; y2; y3; y4])].
Proof.
  unfold re_match, format_regex. intros Hr.
  rewrite re_run_cat in Hr.
  apply re_Y_inv in Hr as (y1 & y2 & y3 & y4 & s1 & -> & Hy & Hr).
  rewrite re_run_cat in Hr. apply re_run_lit in Hr as (s2 & -> & Hr).
  rewrite re_run_cat in Hr.
  apply re_m_inv in Hr as (M & s3 & -> & HM & HMd & HMn & Hr).
  rewrite re_run_cat in Hr. apply re_run_lit in Hr as (s4 & -> & Hr).
  apply re_d_inv in Hr as (D & s5 & -> & HD & Hr).
  injection Hr as <- <-.
  exists y1, y2, y3, y4, M, D. split; [reflexivity|]. auto 10.
Qed.

(** ** What [strptime] accepts *)

Lemma date_new_Ok (y m d0 : Z) (d : date) :
  date_new y m d0 = Ok d -> d = mkdate y m d0 /\ Spec.valid_date d = true.
Proof.
  unfold date_new.
  destruct ((y <? 1) || (9999 <? y)) eqn:Ey; [discriminate|].
  destruct ((m <? 1) || (12 <? m)) eqn:Em; [discriminate|].
  destruct ((d0 <? 1) || (days_in_month y m <? d0)) eqn:Ed; [discriminate|].
  intros [= <-]. split; [reflexivity|].
  unfold Spec.valid_date. cbn [year month day]. lia.
Qed.

Lemma strptime_inv (t : str) (d : date) :
  strptime t = Ok d -> date_text t /\ Spec.valid_date d = true.
Proof.
  unfold strptime.
  destruct (re_match format_regex t) as [[rest g]|] eqn:E; [|discriminate].
  destruct rest; [|discriminate].
  apply re_match_inv in E
    as (y1 & y2 & y3 & y4 & M & D & -> & Hy & HM & HMd & _ & HD & _).
  destruct (int _) as [y|]; [|discriminate]. cbn [res_bind].
  destruct (int _) as [m|]; [|discriminate]. cbn [res_bind].
  destruct (int _) as [d0|]; [|discriminate]. cbn [res_bind].
  intros Hnew. apply date_new_Ok in Hnew as [_ Hv]. split; [|done].
  exists y1, y2, y3, y4, M, D. rewrite app_nil_r. auto 10.
Qed.

Lemma date_text_len (t : str) : date_text t -> 8 <= len t <= 10.
Proof.
  intros (y1 & y2 & y3 & y4 & M & D & -> & _ & HM & _ & HD).
  unfold len. rewrite length_app. cbn [length]. rewrite length_app.
  cbn [length]. lia.
Qed.

Lemma parse_dates_ret_try (token : str) (dates : date * date) :
  parse_dates token = ret dates -> parse_dates_try token = Ok dates.
Proof.
  rewrite parse_dates_of_try. destruct (parse_dates_try token); [|discriminate].
  now intros [= ->].
Qed.

(** ** [split] and the separators of a token *)

Lemma join_split_acc (sep : Z) (s cur : str) :
  join [sep] (split_acc sep s cur) = rev cur ++ s.
Proof.
  revert cur. induction s as [|c s IH]; intros cur.
  - reflexivity.
  - cbn [split_acc]. destruct (Z.eqb_spec c sep) as [->|Hne].
    + specialize (IH []). cbn [rev app] in IH.
      destruct (split_acc sep s []) as [|p ps] eqn:E.
      * cbn in IH. subst s. cbn. now rewrite app_nil_r.
      * cbn [join map concat]. cbn [join] in IH. rewrite <- IH.
        now rewrite <- app_assoc.
    + rewrite IH. cbn [rev]. now rewrite <- app_assoc.
Qed.

(** Joining the pieces of [split] with the separator gives the string
    back. *)
Lemma join_split (sep : Z) (s : str) : join [sep] (split sep s) = s.
Proof. unfold split. now rewrite join_split_acc. Qed.

Lemma split_acc_length (sep : Z) (s cur : str) :
  length (split_acc sep s cur) = S (count_occ Z.eq_dec s sep).
Proof.
  revert cur. induction s as [|c s IH]; intros cur; [reflexivity|].
  cbn [split_acc count_occ].
  destruct (Z.eqb_spec c sep) as [->|Hne].
  - destruct (Z.eq_dec sep sep); [|done]. cbn [length]. now rewrite IH.
  - destruct (Z.eq_dec c sep); [done|]. apply IH.
Qed.

Lemma has_count (sep : Z) (s : str) :
  (1 <= count_occ Z.eq_dec s sep)%nat -> has sep s = true.
Proof.
  induction s as [|c s IH]; cbn [count_occ has existsb]; [lia|].
  destruct (Z.eq_dec c sep) as [->|Hne].
  - intros _. now rewrite Z.eqb_refl.
  - intros Hc. fold (has sep s). rewrite IH by done. apply orb_true_r.
Qed.

Lemma before_after_app (a b : str) :
  has colon a = false ->
  has colon (a ++ colon :: b) = true
  /\ Spec.before colon (a ++ colon :: b) = a
  /\ Spec.after colon (a ++ colon :: b) = b.
Proof.
  induction a as [|c a IH]; intros Ha.
  - repeat split; reflexivity.
  - cbn [has existsb] in Ha. apply orb_false_iff in Ha as [Hc Ha].
    destruct (IH Ha) as (H1 & H2 & H3).
    cbn [app has existsb Spec.before Spec.after].
    rewrite (Z.eqb_sym c colon), Hc. fold (has colon (a ++ colon :: b)).
    rewrite H1, H2, H3. done.
Qed.

Lemma parse_date_strict (t : str) (d : date) :
  Spec.parse_date t = Some d ->
  Spec.strict_format t = true /\ Spec.valid_date d = true.
Proof.
  unfold Spec.parse_date.
  destruct t as [|y1 [|y2 [|y3 [|y4 [|h1 [|m1 [|m2 [|h2 [|d1 [|d2 [|x t]]]]]]]]]]];
    try discriminate.
  destruct (Spec.strict_format _ && Spec.valid_date _) eqn:E; [|discriminate].
  intros [= <-]. now apply andb_true_iff in E.
Qed.

(** X4.  Whenever [parse_dates] returns, both dates are days of the
    calendar, from year 1 to year 9999, and their ISO texts, which the
    request and the banner use, are in the strict form and denote the
    same dates. *)
Theorem parse_dates_calendar_dates (token : str) (s e : date) :
  parse_dates token = ret (s, e) ->
  Spec.valid_date s = true /\ Spec.valid_date e = true
  /\ Spec.strict_format (isoformat s) = true
  /\ Spec.strict_format (isoformat e) = true
  /\ Spec.parse_date (isoformat s) = Some s
  /\ Spec.parse_date (isoformat e) = Some e.
Proof.
  intros Hret. apply parse_dates_ret_try, parse_dates_try_accepts in Hret.
  assert (Hv : Spec.valid_date s = true /\ Spec.valid_date e = true).
  { destruct Hret as [[(_ & Hs & ->)|(a & b & _ & Hs & He)] _].
    - apply strptime_inv in Hs as [_ Hs]. done.
    - apply strptime_inv in Hs as [_ Hs]. apply strptime_inv in He as [_ He].
      done. }
  destruct Hv as [Hs He].
  pose proof (parse_date_isoformat s Hs) as Hps.
  pose proof (parse_date_isoformat e He) as Hpe.
  destruct (parse_date_strict _ _ Hps) as [Hfs _].
  destruct (parse_date_strict _ _ Hpe) as [Hfe _].
  auto 10.
Qed.

(** X5.  Reading back what [isoformat] writes: a valid date gives itself
    twice, and two valid dates in order, joined by the separator, give
    the interval. *)
Theorem parse_dates_isoformat (s e : date) :
  Spec.valid_date s = true -> Spec.valid_date e = true ->
  date_gt s e = false ->
  parse_dates (isoformat s) = ret (s, s)
  /\ parse_dates (isoformat s ++ py ":" ++ isoformat e) = ret (s, e).
Proof.
  intros Hs He Hle.
  pose proof (parse_date_isoformat s Hs) as Hps.
  pose proof (parse_date_isoformat e He) as Hpe.
  rewrite !parse_dates_of_try. split.
  - now rewrite (parse_dates_try_strict_single _ _ Hps).
  - change (py ":" ++ isoformat e) with (colon :: isoformat e).
    destruct (before_after_app (isoformat s) (isoformat e))
      as (Hc & Hb & Ha); [now apply strict_no_colon with s|].
    rewrite (parse_dates_try_strict_range _ s e Hc); [now rewrite Hle| |].
    + now rewrite Hb.
    + now rewrite Ha.
Qed.

(** X6.  The tokens [parse_dates] accepts: the text of one date, of 8 to 10
    characters, or two such texts around one separator; nothing may
    precede or follow them. *)
Theorem parse_dates_token_shape (token : str) (s e : date) :
  parse_dates token = ret (s, e) ->
  (date_text token /\ 8 <= len token <= 10)
  \/ (exists a b,
        token = a ++ colon :: b /\ date_text a /\ date_text b
        /\ 17 <= len token <= 21).
Proof.
  intros Hret. apply parse_dates_ret_try, parse_dates_try_accepts in Hret.
  destruct Hret as [[(_ & Hs & _)|(a & b & Hsplit & Hs & He)] _].
  - left. apply strptime_inv in Hs as [Ht _]. split; [done|].
    now apply date_text_len.
  - right. exists a, b.
    apply strptime_inv in Hs as [Ha _]. apply strptime_inv in He as [Hb _].
    assert (Htok : token = a ++ colon :: b).
    { rewrite <- (join_split colon token), Hsplit. cbn.
      now rewrite app_nil_r. }
    split; [done|]. split; [done|]. split; [done|].
    apply date_text_len in Ha, Hb. rewrite Htok, len_app.
    unfold len in *. cbn [length]. lia.
Qed.

(** X7.  A token with two or more separators is rejected with the message
    of the failed unpacking, whatever stands between the separators. *)
Theorem parse_dates_many_separators (token : str) :
  (2 <= count_occ Z.eq_dec token colon)%nat ->
  parse_dates token
  = ([Print (py "Error parsing date(s): too many values to unpack (expected 2)")],
     Exited 1).
Proof.
  intros Hcount. rewrite parse_dates_of_try. unfold parse_dates_try.
  change (py ":") with [colon]. rewrite str_in_char, has_count by lia.
  pose proof (split_acc_length colon token []) as Hlen. fold (split colon token) in Hlen.
  destruct (split colon token) as [|p1 [|p2 [|p3 l]]]; cbn [length] in Hlen;
    try lia.
  reflexivity.
Qed.

End ParseDatesMore.

Lemma parse_dates_calendar_dates_witness :
  Spec.valid_date (mkdate 2024 6 1) = true
  /\ Spec.valid_date (mkdate 2024 6 1) = true
  /\ Spec.strict_format (isoformat (mkdate 2024 6 1)) = true
  /\ Spec.strict_format (isoformat (mkdate 2024 6 1)) = true
  /\ Spec.parse_date (isoformat (mkdate 2024 6 1)) = Some (mkdate 2024 6 1)
  /\ Spec.parse_date (isoformat (mkdate 2024 6 1)) = Some (mkdate 2024 6 1).
Proof.
  apply (@parse_dates_calendar_dates excerpt_tables (py "2024-6-1")).
  reflexivity.
Defined.

Lemma parse_dates_isoformat_witness :
  @parse_dates excerpt_tables (isoformat (mkdate 2024 2 29))
  = ret (mkdate 2024 2 29, mkdate 2024 2 29)
  /\ @parse_dates excerpt_tables
       (isoformat (mkdate 2024 2 29) ++ py ":" ++ isoformat (mkdate 2024 3 1))
     = ret (mkdate 2024 2 29, mkdate 2024 3 1).
Proof.
  apply (@parse_dates_isoformat excerpt_tables); reflexivity.
Defined.

Lemma parse_dates_token_shape_witness :
  (@date_text excerpt_tables (py "2024-6-1") /\ 8 <= len (py "2024-6-1") <= 10)
  \/ (exists a b,
        py "2024-6-1" = a ++ colon :: b /\ @date_text excerpt_tables a
        /\ @date_text excerpt_tables b /\ 17 <= len (py "2024-6-1") <= 21).
Proof.
  apply (@parse_dates_token_shape excerpt_tables (py "2024-6-1")
           (mkdate 2024 6 1) (mkdate 2024 6 1)).
  reflexivity.
Defined.

Lemma parse_dates_many_separators_witness :
  @parse_dates excerpt_tables (py "2024-06-01:2024-06-02:2024-06-03")
  = ([Print (py "Error parsing date(s): too many values to unpack (expected 2)")],
     Exited 1).
Proof.
  apply (@parse_dates_many_separators excerpt_tables). vm_compute. lia.
Defined.

(** * Further properties of [get_weather_emoji] *)

Section EmojiMore.

Context `{UnicodeData}.

Lemma startswith_spec (hay prefix : str) :
  startswith hay prefix = true <-> exists rest, hay = prefix ++ rest.
Proof.
  revert hay. induction prefix as [|p prefix IH]; intros hay.
  - split; [intros _; now exists hay|intros _; now destruct hay].
  - destruct hay as [|h hay]; cbn [startswith].
    + split; [discriminate|]. now intros [rest [=]].
    + rewrite andb_true_iff, IH, Z.eqb_eq. split.
      * intros [-> [rest ->]]. now exists rest.
      * intros [rest [= -> ->]]. split; [done|]. now exists rest.
Qed.

(** [needle in hay] holds exactly when [hay] has [needle] as a
    contiguous part. *)
Lemma str_in_spec (needle hay : str) :
  str_in needle hay = true
  <-> exists before after, hay = before ++ needle ++ after.
Proof.
  induction hay as [|h hay IH].
  - cbn [str_in]. rewrite orb_false_r, startswith_spec. split.
    + intros [rest Hr]. now exists [], rest.
    + intros (before & after & Hh).
      symmetry in Hh. apply app_eq_nil in Hh as [-> Hh]. now exists after.
  - cbn [str_in]. rewrite orb_true_iff, startswith_spec, IH. split.
    + intros [[rest Hr]|(before & after & ->)].
      * now exists [], rest.
      * now exists (h :: before), after.
    + intros ([|b before] & after & Hh).
      * left. now exists after.
      * right. injection Hh as -> ->. now exists before, after.
Qed.

(** X8.  Which conditions get which symbol.  A keyword counts wherever it
    occurs in the lower-cased text, also inside a word; a later rule
    applies only when no keyword of an earlier rule occurs. *)
Theorem get_weather_emoji_symbols (condition : str) :
  (forall keyword,
     mentions condition keyword = true
     <-> exists before after,
           str_lower condition = before ++ py keyword ++ after)
  /\ (get_weather_emoji condition = SUN
      <-> mentions condition "clear" || mentions condition "sun" = true)
  /\ (get_weather_emoji condition = PARTLY_CLOUDY
      <-> mentions condition "clear" || mentions condition "sun" = false
          /\ mentions condition "partly" || mentions condition "cloud" = true)
  /\ (get_weather_emoji condition = RAIN
      <-> mentions condition "clear" || mentions condition "sun" = false
          /\ mentions condition "partly" || mentions condition "cloud" = false
          /\ mentions condition "rain" = true)
  /\ (get_weather_emoji condition = SNOW
      <-> mentions condition "clear" || mentions condition "sun" = false
          /\ mentions condition "partly" || mentions condition "cloud" = false
          /\ mentions condition "rain" = false
          /\ mentions condition "snow" = true)
  /\ (get_weather_emoji condition = STORM
      <-> mentions condition "clear" || mentions condition "sun" = false
          /\ mentions condition "partly" || mentions condition "cloud" = false
          /\ mentions condition "rain" = false
          /\ mentions condition "snow" = false
          /\ mentions condition "storm" || mentions condition "thunder" = true)
  /\ (get_weather_emoji condition = FOG
      <-> mentions condition "clear" || mentions condition "sun" = false
          /\ mentions condition "partly" || mentions condition "cloud" = false
          /\ mentions condition "rain" = false
          /\ mentions condition "snow" = false
          /\ mentions condition "storm" || mentions condition "thunder" = false
          /\ mentions condition "fog" = true)
  /\ (get_weather_emoji condition = RAINBOW
      <-> mentions condition "clear" || mentions condition "sun" = false
          /\ mentions condition "partly" || mentions condition "cloud" = false
          /\ mentions condition "rain" = false
          /\ mentions condition "snow" = false
          /\ mentions condition "storm" || mentions condition "thunder" = false
          /\ mentions condition "fog" = false).
Proof.
  split; [intros keyword; apply str_in_spec|].
  unfold get_weather_emoji, mentions.
  destruct (str_in (py "clear") _ || str_in (py "sun") _);
    [repeat split; intros; try discriminate; intuition discriminate|].
  destruct (str_in (py "partly") _ || str_in (py "cloud") _);
    [repeat split; intros; try discriminate; intuition discriminate|].
  destruct (str_in (py "rain") _);
    [repeat split; intros; try discriminate; intuition discriminate|].
  destruct (str_in (py "snow") _);
    [repeat split; intros; try discriminate; intuition discriminate|].
  destruct (str_in (py "storm") _ || str_in (py "thunder") _);
    [repeat split; intros; try discriminate; intuition discriminate|].
  destruct (str_in (py "fog") _);
    repeat split; intros; try discriminate; intuition discriminate.
Qed.

End EmojiMore.

(** * Further properties of [fetch_weather] and [main] *)

Section MainMore.

Context `{UnicodeData}.

(** ** The rows of the table *)

Lemma table_row_dict (items : list (str * json)) :
  table_row (JDict items)
  = match dict_get (py "datetime") JNull items,
          dict_get (py "conditions") (JStr (py "Unknown")) items with
    | JStr d, JStr c =>
        Ok [pad_string d 10;
            pad_string (get_weather_emoji c ++ py " " ++ c) 20;
            pad_string
              (py_str (dict_get (py "tempmax") (JStr (py "N/A")) items)
               ++ degree ++ py " / "
               ++ py_str (dict_get (py "tempmin") (JStr (py "N/A")) items)
               ++ degree) 15;
            pad_string
              (py_str (dict_get (py "precipprob") (JStr (py "N/A")) items)
               ++ py "%") 8;
            pad_string
              (py_str (dict_get (py "windspeed") (JStr (py "N/A")) items)
               ++ py " km/h") 12]
    | date, JStr _ => Raise (no_attribute date "isascii")
    | _, condition => Raise (no_attribute condition "lower")
    end.
Proof.
  unfold table_row, get. cbn [res_bind].
  destruct (dict_get (py "conditions") _ items);
    destruct (dict_get (py "datetime") _ items); reflexivity.
Qed.

Lemma table_row_cases (day : json) :
  if well_formed_day day
  then exists row, table_row day = Ok row /\ length row = 5%nat
  else exists msg, table_row day = Raise (AttributeError msg).
Proof.
  destruct day as [| | | | |l|items];
    try (cbn; eexists; reflexivity).
  unfold well_formed_day. rewrite table_row_dict.
  destruct (dict_get (py "datetime") _ items);
    destruct (dict_get (py "conditions") _ items);
    try (eexists; reflexivity); eexists; split; reflexivity.
Qed.

Lemma table_rows_cases (days : list json) :
  if forallb well_formed_day days
  then exists rows,
         table_rows days = Ok rows
         /\ length rows = length days
         /\ Forall (fun row => length row = 5%nat) rows
  else exists msg, table_rows days = Raise (AttributeError msg).
Proof.
  induction days as [|day days IH]; cbn [forallb table_rows].
  - exists []. repeat split. constructor.
  - pose proof (table_row_cases day) as Hday.
    destruct (well_formed_day day); cbn [andb].
    + destruct Hday as (row & -> & Hrow). cbn [res_bind].
      destruct (forallb well_formed_day days).
      * destruct IH as (rows & -> & Hlen & Hall). exists (row :: rows).
        cbn [res_bind length]. split; [done|]. split; [lia|].
        now constructor.
      * destruct IH as (msg & ->). now exists msg.
    + destruct Hday as (msg & ->). now exists msg.
Qed.

(** X9.  A row is made exactly for the well-formed day records, and then it
    has as many cells as there are headers; any other record raises an
    exception. *)
Theorem table_row_when (day : json) :
  ((exists row, table_row day = Ok row) <-> well_formed_day day = true)
  /\ (forall row, table_row day = Ok row -> length row = length headers)
  /\ (well_formed_day day = false -> exists e, table_row day = Raise e).
Proof.
  pose proof (table_row_cases day) as Hc.
  destruct (well_formed_day day).
  - destruct Hc as (row & Hrow & Hlen). split; [|split; [|done]].
    + split; [done|]. intros _. now exists row.
    + intros row' Hrow'. rewrite Hrow in Hrow'. now injection Hrow' as <-.
  - destruct Hc as (msg & Hmsg). split; [|split].
    + split; [|done]. intros [row Hrow]. rewrite Hmsg in Hrow. discriminate.
    + intros row Hrow. rewrite Hmsg in Hrow. discriminate.
    + intros _. eexists. exact Hmsg.
Qed.

(** X10.  The loop over the days: one row per day, each with as many cells
    as there are headers, when every record is well formed; otherwise
    a record that is not ends the loop with an exception and no table
    is built. *)
Theorem table_rows_when (days : list json) :
  ((exists rows, table_rows days = Ok rows)
   <-> forallb well_formed_day days = true)
  /\ (forall rows,
        table_rows days = Ok rows ->
        length rows = length days
        /\ Forall (fun row => length row = length headers) rows)
  /\ (forallb well_formed_day days = false ->
      exists e, table_rows days = Raise e).
Proof.
  pose proof (table_rows_cases days) as Hc.
  destruct (forallb well_formed_day days).
  - destruct Hc as (rows & Hrows & Hlen & Hall). split; [|split; [|done]].
    + split; [done|]. intros _. now exists rows.
    + intros rows' Hrows'. rewrite Hrows in Hrows'.
      injection Hrows' as <-. done.
  - destruct Hc as (msg & Hmsg). split; [|split].
    + split; [|done]. intros [rows Hrows]. rewrite Hmsg in Hrows. discriminate.
    + intros rows Hrows. rewrite Hmsg in Hrows. discriminate.
    + intros _. eexists. exact Hmsg.
Qed.

(** X11.  A day record that has a date and none of the other fields: the
    cells show the rainbow with "Unknown" and "N/A" for every number. *)
Theorem table_row_defaults (items : list (str * json)) (d : str) :
  Spec.lookup (py "datetime") items = Some (JStr d) ->
  Spec.lookup (py "tempmax") items = None ->
  Spec.lookup (py "tempmin") items = None ->
  Spec.lookup (py "precipprob") items = None ->
  Spec.lookup (py "windspeed") items = None ->
  Spec.lookup (py "conditions") items = None ->
  table_row (JDict items)
  = Ok [pad_string d 10;
        pad_string (RAINBOW ++ py " Unknown") 20;
        pad_string (py "N/A" ++ degree ++ py " / N/A" ++ degree) 15;
        pad_string (py "N/A%") 8;
        pad_string (py "N/A km/h") 12].
Proof.
  intros Hd H1 H2 H3 H4 H5. rewrite table_row_dict, !dict_get_lookup.
  rewrite Hd, H1, H2, H3, H4, H5. reflexivity.
Qed.

End MainMore.

Lemma table_row_defaults_witness :
  @table_row excerpt_tables (JDict [(py "datetime", JStr (py "2024-06-01"))])
  = Ok [@pad_string excerpt_tables (py "2024-06-01") 10;
        @pad_string excerpt_tables (RAINBOW ++ py " Unknown") 20;
        @pad_string excerpt_tables
          (py "N/A" ++ degree ++ py " / N/A" ++ degree) 15;
        @pad_string excerpt_tables (py "N/A%") 8;
        @pad_string excerpt_tables (py "N/A km/h") 12].
Proof.
  apply (@table_row_defaults excerpt_tables); reflexivity.
Defined.

Lemma table_row_when_witness :
  exists e,
    @table_row excerpt_tables (JDict [(py "tempmax", JInt 20)]) = Raise e.
Proof.
  apply (@table_row_when excerpt_tables (JDict [(py "tempmax", JInt 20)])).
  reflexivity.
Defined.

Lemma table_rows_when_witness :
  exists e,
    @table_rows excerpt_tables
      [JDict [(py "datetime", JStr (py "2024-06-01"))]; JStr (py "x")]
    = Raise e.
Proof.
  apply (@table_rows_when excerpt_tables
           [JDict [(py "datetime", JStr (py "2024-06-01"))]; JStr (py "x")]).
  reflexivity.
Defined.

(** ** Runs of [main] *)

Section Runs.

Context `{UnicodeData}.

Lemma bind_crash {A B} (tr : list event) (e : exn) (k : A -> proc B) :
  bind (tr, Crashed e) k = (tr, Crashed e).
Proof. reflexivity. Qed.

(** The two ways [fetch_weather] ends. *)
Lemma fetch_weather_cases (net : str -> http_result)
    (nation city : str) (s e : date) (key : str) :
  (exists line,
     fetch_weather net nation city s e key
     = ([HttpGet (timeline_url nation city s e key); Print line], Exited 1)
     /\ (line = py "Request failed: "
                ++ match net (timeline_url nation city s e key) with
                   | RequestException msg => msg
                   | Responded r =>
                       match json_of r with inl msg => msg | inr _ => [] end
                   end
         \/ exists r, net (timeline_url nation city s e key) = Responded r
                      /\ status_code r <> 200)
     /\ forall r data,
          net (timeline_url nation city s e key) = Responded r ->
          status_code r = 200 -> json_of r <> inr data)
  \/ (exists r data,
        net (timeline_url nation city s e key) = Responded r
        /\ status_code r = 200 /\ json_of r = inr data
        /\ fetch_weather net nation city s e key
           = ([HttpGet (timeline_url nation city s e key)], Returned data)).
Proof.
  unfold fetch_weather. fold (timeline_url nation city s e key).
  rewrite bind_emit.
  destruct (net (timeline_url nation city s e key)) as [msg|r] eqn:Hnet.
  - left. eexists. split; [reflexivity|]. split; [now left|]. discriminate.
  - destruct (Z.eqb_spec (status_code r) 200) as [Hst|Hst]; cbn [negb].
    + destruct (json_of r) as [msg|data] eqn:Hjson.
      * left. eexists. split; [reflexivity|]. split; [now left|].
        intros r' data' [= <-] _. rewrite Hjson. discriminate.
      * right. now exists r, data.
    + left. eexists. split; [reflexivity|]. split; [right; now exists r|].
      intros r' data' [= <-] Hst'. done.
Qed.


(** [main] up to the call of [fetch_weather]. *)
Lemma main_cases_before_fetch (w : world) :
  (exists line, main w = ([Print line], Exited 1)
                /\ parse_dates (args_date w) = ([Print line], Exited 1))
  \/ (exists s e,
        parse_dates (args_date w) = ret (s, e)
        /\ (environ_api_key w = None \/ environ_api_key w = Some [])
        /\ main w = ([Print guidance], Exited 1))
  \/ (exists s e c key,
        parse_dates (args_date w) = ret (s, e)
        /\ environ_api_key w = Some (c :: key)
        /\ main w
           = bind (fetch_weather (requests_get w) (args_nation w)
                     (args_city w) s e (c :: key))
               (fun data =>
                  bind (print (banner w s e)) (fun _ => report_days data))).
Proof.
  unfold main. rewrite parse_dates_of_try.
  destruct (parse_dates_try (args_date w)) as [[s e]|err].
  - change ([], Returned (s, e)) with (ret (s, e)). rewrite bind_ret.
    destruct (environ_api_key w) as [[|c key]|] eqn:Hkey.
    + right. left. exists s, e. auto.
    + right. right. now exists s, e, c, key.
    + right. left. exists s, e. auto.
  - left. eexists. split; reflexivity.
Qed.

(** The ways the last part of [main] ends. *)
Lemma report_days_cases (data : json) :
  ((forall items, data <> JDict items)
   /\ report_days data = ([], Crashed (no_attribute data "get")))
  \/ (exists items,
        data = JDict items
        /\ ((truthy (dict_get (py "days") (JList []) items) = false
             /\ report_days data = ([Print no_data_notice], Exited 0))
            \/ (exists days rows,
                  dict_get (py "days") (JList []) items = JList days
                  /\ days <> []
                  /\ forallb well_formed_day days = true
                  /\ table_rows days = Ok rows
                  /\ report_days data
                     = ([PrintTable headers rows], Returned tt))
            \/ (truthy (dict_get (py "days") (JList []) items) = true
                /\ (forall days,
                      dict_get (py "days") (JList []) items = JList days ->
                      forallb well_formed_day days = false)
                /\ exists e, report_days data = ([], Crashed e)))).
Proof.
  unfold report_days.
  destruct data as [| | | | | |items];
    try (left; split; [discriminate|reflexivity]).
  right. exists items. split; [reflexivity|].
  cbn [get lift]. rewrite bind_ret.
  destruct (truthy (dict_get (py "days") (JList []) items)) eqn:Ht; cbn [negb].
  2:{ left. split; [done|reflexivity]. }
  right.
  destruct (dict_get (py "days") (JList []) items) as [| | | |s|days|kvs];
    try discriminate.
  - (* a number or [True]: not iterable *)
    right. split; [done|]. split; [discriminate|]. eexists. reflexivity.
  - right. split; [done|]. split; [discriminate|]. eexists. reflexivity.
  - right. split; [done|]. split; [discriminate|]. eexists. reflexivity.
  - (* a string: its characters are not records *)
    right. split; [done|]. split; [discriminate|].
    destruct s as [|c s]; [discriminate|]. eexists. reflexivity.
  - (* a list *)
    cbn [iterate lift]. rewrite bind_ret.
    pose proof (table_rows_cases days) as Hc.
    destruct (forallb well_formed_day days) eqn:Hwf.
    + destruct Hc as (rows & Hrows & _). left. exists days, rows.
      rewrite Hrows. cbn [lift]. rewrite bind_ret.
      repeat split; try done. now destruct days.
    + destruct Hc as (msg & Hmsg). right. split; [done|].
      split; [now intros days' [= <-]|].
      rewrite Hmsg. eexists. reflexivity.
  - (* an object: its keys are not records *)
    right. split; [done|]. split; [discriminate|].
    destruct kvs as [|kv kvs]; [discriminate|]. eexists. reflexivity.
Qed.

Lemma main_with_key (w : world) (s e : date) (key : str) :
  parse_dates (args_date w) = ret (s, e) ->
  environ_api_key w = Some key -> key <> [] ->
  main w
  = bind (fetch_weather (requests_get w) (args_nation w) (args_city w)
            s e key)
      (fun data => bind (print (banner w s e)) (fun _ => report_days data)).
Proof.
  intros Hparse Hkey Hne. unfold main. rewrite Hparse, bind_ret, Hkey.
  now destruct key.
Qed.

Lemma main_after_fetch (w : world) (s e : date) (key : str) (data : json) :
  parse_dates (args_date w) = ret (s, e) ->
  environ_api_key w = Some key -> key <> [] ->
  fetch_weather (requests_get w) (args_nation w) (args_city w) s e key
  = ([HttpGet (timeline_url (args_nation w) (args_city w) s e key)],
     Returned data) ->
  main w
  = (HttpGet (timeline_url (args_nation w) (args_city w) s e key)
     :: Print (banner w s e) :: trace (report_days data),
     result (report_days data)).
Proof.
  intros Hparse Hkey Hne Hfetch.
  rewrite (main_with_key w s e key) by done.
  rewrite Hfetch, bind_returned. unfold print. now rewrite bind_emit.
Qed.

(** A run that sent the request [url]: dates, key and what follows. *)
Lemma main_sent (w : world) (url : str) :
  In (HttpGet url) (trace (main w)) ->
  exists s e key,
    parse_dates (args_date w) = ret (s, e)
    /\ environ_api_key w = Some key /\ key <> []
    /\ url = timeline_url (args_nation w) (args_city w) s e key.
Proof. apply main_request. Qed.



(** X14.  A table is printed only at the end of a run that returns normally,
    after the one request and the banner, for an answer with status
    200 whose [days] is a non-empty list of well-formed records; the
    table has one row per day and as many cells per row as headers. *)
Theorem main_table_only_if (w : world) :
  existsb is_table (trace (main w)) = true ->
  exists s e key r items days rows,
    parse_dates (args_date w) = ret (s, e)
    /\ environ_api_key w = Some key
    /\ requests_get w (timeline_url (args_nation w) (args_city w) s e key)
       = Responded r
    /\ status_code r = 200
    /\ json_of r = inr (JDict items)
    /\ dict_get (py "days") (JList []) items = JList days
    /\ days <> []
    /\ forallb well_formed_day days = true
    /\ main w
       = ([HttpGet (timeline_url (args_nation w) (args_city w) s e key);
           Print (banner w s e); PrintTable headers rows],
          Returned tt)
    /\ length rows = length days
    /\ Forall (fun row => length row = length headers) rows.
Proof.
  destruct (main_cases_before_fetch w)
    as [(line & -> & _)|[(s & e & _ & _ & ->)
                        |(s & e & c & key & Hparse & Hkey & Hm)]];
    [discriminate..|].
  destruct (fetch_weather_cases (requests_get w) (args_nation w)
              (args_city w) s e (c :: key))
    as [(line & Hf & _)|(r & data & Hnet & Hst & Hjson & Hf)].
  { rewrite Hm, Hf. discriminate. }
  rewrite (main_after_fetch w s e (c :: key) data) by done.
  destruct (report_days_cases data)
    as [[_ Hr]|(items & -> & [[_ Hr]|[(days & rows & Hd & Hne & Hwf & Hrows & Hr)
                                     |(_ & _ & err & Hr)]])];
    rewrite Hr; cbn [trace result fst snd]; try discriminate.
  intros _. exists s, e, (c :: key), r, items, days, rows.
  pose proof (table_rows_cases days) as Hc. rewrite Hwf in Hc.
  destruct Hc as (rows' & Hrows' & Hlen & Hall).
  rewrite Hrows in Hrows'. injection Hrows' as <-. auto 15.
Qed.


(** X16.  A record that is not well formed, or a [days] value that is
    neither empty nor a list, ends the run with an uncaught exception
    after the banner: no table, not even for the good records, and
    exit code 1. *)
Theorem main_malformed_days (w : world) (url : str) (r : response)
    (items : list (str * json)) :
  In (HttpGet url) (trace (main w)) ->
  requests_get w url = Responded r ->
  status_code r = 200 ->
  json_of r = inr (JDict items) ->
  truthy (dict_get (py "days") (JList []) items) = true ->
  (forall days,
     dict_get (py "days") (JList []) items = JList days ->
     forallb well_formed_day days = false) ->
  exists line e,
    main w = ([HttpGet url; Print line], Crashed e)
    /\ exit_code (main w) = 1
    /\ existsb is_table (trace (main w)) = false.
Proof.
  intros Hin Hnet Hst Hjson Htruthy Hbad.
  destruct (main_sent w url Hin) as (s & e & key & Hparse & Hkey & Hk & ->).
  pose proof (fetch_weather_200 _ _ _ _ _ _ r (JDict items) Hnet Hst Hjson)
    as Hf.
  rewrite (main_after_fetch w s e key (JDict items)) by done.
  destruct (report_days_cases (JDict items))
    as [[Hno _]|(items' & [= <-] & [[Ht _]|[(days & rows & Hd & _ & Hwf & _)
                                           |(_ & _ & err & Hr)]])].
  - now destruct (Hno items).
  - rewrite Htruthy in Ht. discriminate.
  - rewrite (Hbad days Hd) in Hwf. discriminate.
  - exists (banner w s e), err. rewrite Hr. done.
Qed.

(** X17.  An answer with status 200 whose JSON is not an object ends the run
    with an uncaught [AttributeError] after the banner. *)
Theorem main_not_an_object (w : world) (url : str) (r : response)
    (data : json) :
  In (HttpGet url) (trace (main w)) ->
  requests_get w url = Responded r ->
  status_code r = 200 ->
  json_of r = inr data ->
  (forall items, data <> JDict items) ->
  exists line,
    main w = ([HttpGet url; Print line], Crashed (no_attribute data "get"))
    /\ exit_code (main w) = 1
    /\ existsb is_table (trace (main w)) = false.
Proof.
  intros Hin Hnet Hst Hjson Hno.
  destruct (main_sent w url Hin) as (s & e & key & Hparse & Hkey & Hk & ->).
  pose proof (fetch_weather_200 _ _ _ _ _ _ r data Hnet Hst Hjson) as Hf.
  rewrite (main_after_fetch w s e key data) by done.
  destruct (report_days_cases data) as [[_ Hr]|(items & -> & _)].
  - exists (banner w s e). rewrite Hr. done.
  - now destruct (Hno items).
Qed.

(** X18.  Every false value of [days] counts as no data, not only a missing
    entry or an empty list: null, zero, the empty string, the empty
    object and [false] give the notice and exit code 0 as well. *)
Theorem main_falsy_days (w : world) (url : str) (r : response)
    (items : list (str * json)) :
  In (HttpGet url) (trace (main w)) ->
  requests_get w url = Responded r ->
  status_code r = 200 ->
  json_of r = inr (JDict items) ->
  truthy (dict_get (py "days") (JList []) items) = false ->
  exists line,
    main w = ([HttpGet url; Print line; Print no_data_notice], Exited 0).
Proof.
  intros Hin Hnet Hst Hjson Hfalsy.
  destruct (main_sent w url Hin) as (s & e & key & Hparse & Hkey & Hk & ->).
  pose proof (fetch_weather_200 _ _ _ _ _ _ r (JDict items) Hnet Hst Hjson)
    as Hf.
  rewrite (main_after_fetch w s e key (JDict items)) by done.
  destruct (report_days_cases (JDict items))
    as [[Hno _]|(items' & [= <-] & [[_ Hr]|[(days & rows & Hd & Hne & _)
                                           |(Ht & _)]])].
  - now destruct (Hno items).
  - exists (banner w s e). now rewrite Hr.
  - rewrite Hd in Hfalsy. now destruct days.
  - rewrite Hfalsy in Ht. discriminate.
Qed.

(** X19.  When the request itself fails, or the body of a 200 answer is not
    JSON, the run prints ["Request failed: ..."] with the text of the
    exception and exits with code 1; neither banner nor table is
    printed. *)
Theorem main_request_failed (w : world) (url : str) :
  In (HttpGet url) (trace (main w)) ->
  (forall msg,
     requests_get w url = RequestException msg ->
     main w = ([HttpGet url; Print (py "Request failed: " ++ msg)], Exited 1))
  /\ (forall r msg,
        requests_get w url = Responded r ->
        status_code r = 200 ->
        json_of r = inl msg ->
        main w = ([HttpGet url; Print (py "Request failed: " ++ msg)],
                  Exited 1)).
Proof.
  intros Hin.
  destruct (main_sent w url Hin) as (s & e & key & Hparse & Hkey & Hk & ->).
  rewrite (main_with_key w s e key) by done.
  unfold fetch_weather.
  fold (timeline_url (args_nation w) (args_city w) s e key).
  rewrite bind_emit. split.
  - intros msg Hnet. rewrite Hnet. reflexivity.
  - intros r msg Hnet Hst Hjson. rewrite Hnet, Hst, Hjson. reflexivity.
Qed.


(** X21.  The date is checked first: when it is rejected the run is the
    error line of [parse_dates] and exit code 1, and neither the
    environment variable nor the network has any influence. *)
Theorem main_bad_date (w : world) (line : str) :
  parse_dates (args_date w) = ([Print line], Exited 1) ->
  main w = ([Print line], Exited 1)
  /\ forall w', args_date w' = args_date w -> main w' = main w.
Proof.
  intros Hparse.
  assert (Hgen : forall v, args_date v = args_date w ->
                           main v = ([Print line], Exited 1)).
  { intros v Hv. unfold main. now rewrite Hv, Hparse. }
  split; [now apply Hgen|]. intros w' Hw'. rewrite (Hgen w' Hw').
  symmetry. now apply Hgen.
Qed.

End Runs.

Lemma main_table_only_if_witness :
  exists url line rows,
    @main excerpt_tables
      (sample_world (Some (py "KEY")) (answer_days (JList [good_day])))
    = ([HttpGet url; Print line; PrintTable headers rows], Returned tt)
    /\ Forall (fun row => length row = length headers) rows.
Proof.
  destruct (@main_table_only_if excerpt_tables
              (sample_world (Some (py "KEY")) (answer_days (JList [good_day]))))
    as (s & e & key & r & items & days & rows & _ & _ & _ & _ & _ & _ & _ & _
        & Hmain & _ & Hall).
  - reflexivity.
  - eexists _, _, rows. split; [exact Hmain|exact Hall].
Defined.


Lemma main_malformed_days_witness :
  exists line e,
    @main excerpt_tables
      (sample_world (Some (py "KEY"))
         (answer_days (JList [good_day; JDict [(py "tempmax", JInt 20)]])))
    = ([HttpGet (timeline_url (py "FR") (py "Paris") (mkdate 2024 6 1)
                   (mkdate 2024 6 5) (py "KEY"));
        Print line],
       Crashed e)
    /\ exit_code
         (@main excerpt_tables
            (sample_world (Some (py "KEY"))
               (answer_days (JList [good_day; JDict [(py "tempmax", JInt 20)]]))))
       = 1
    /\ existsb is_table
         (trace
            (@main excerpt_tables
               (sample_world (Some (py "KEY"))
                  (answer_days
                     (JList [good_day; JDict [(py "tempmax", JInt 20)]])))))
       = false.
Proof.
  eapply (@main_malformed_days excerpt_tables
            (sample_world (Some (py "KEY"))
               (answer_days (JList [good_day; JDict [(py "tempmax", JInt 20)]]))))
    with (items := [(py "days",
                     JList [good_day; JDict [(py "tempmax", JInt 20)]])]).
  - vm_compute. left. reflexivity.
  - reflexivity.
  - reflexivity.
  - reflexivity.
  - reflexivity.
  - intros days [= <-]. reflexivity.
Defined.

Lemma main_not_an_object_witness :
  exists line,
    @main excerpt_tables
      (sample_world (Some (py "KEY"))
         (Responded {| status_code := 200; text := py "[]";
                       json_of := inr (JList []) |}))
    = ([HttpGet (timeline_url (py "FR") (py "Paris") (mkdate 2024 6 1)
                   (mkdate 2024 6 5) (py "KEY"));
        Print line],
       Crashed (no_attribute (JList []) "get"))
    /\ exit_code
         (@main excerpt_tables
            (sample_world (Some (py "KEY"))
               (Responded {| status_code := 200; text := py "[]";
                             json_of := inr (JList []) |})))
       = 1
    /\ existsb is_table
         (trace
            (@main excerpt_tables
               (sample_world (Some (py "KEY"))
                  (Responded {| status_code := 200; text := py "[]";
                                json_of := inr (JList []) |}))))
       = false.
Proof.
  eapply (@main_not_an_object excerpt_tables
            (sample_world (Some (py "KEY"))
               (Responded {| status_code := 200; text := py "[]";
                             json_of := inr (JList []) |}))).
  - vm_compute. left. reflexivity.
  - reflexivity.
  - reflexivity.
  - reflexivity.
  - discriminate.
Defined.

Lemma main_falsy_days_witness :
  exists line,
    @main excerpt_tables (sample_world (Some (py "KEY")) (answer_days JNull))
    = ([HttpGet (timeline_url (py "FR") (py "Paris") (mkdate 2024 6 1)
                   (mkdate 2024 6 5) (py "KEY"));
        Print line; Print no_data_notice],
       Exited 0).
Proof.
  eapply (@main_falsy_days excerpt_tables
            (sample_world (Some (py "KEY")) (answer_days JNull))).
  - vm_compute. left. reflexivity.
  - reflexivity.
  - reflexivity.
  - reflexivity.
  - reflexivity.
Defined.

Lemma main_request_failed_witness :
  @main excerpt_tables
    (sample_world (Some (py "KEY")) (RequestException (py "Connection refused")))
  = ([HttpGet (timeline_url (py "FR") (py "Paris") (mkdate 2024 6 1)
                 (mkdate 2024 6 5) (py "KEY"));
      Print (py "Request failed: " ++ py "Connection refused")],
     Exited 1)
  /\ @main excerpt_tables (sample_world (Some (py "KEY")) answer_not_json)
     = ([HttpGet (timeline_url (py "FR") (py "Paris") (mkdate 2024 6 1)
                    (mkdate 2024 6 5) (py "KEY"));
         Print (py "Request failed: "
                ++ py "Expecting value: line 1 column 1 (char 0)")],
        Exited 1).
Proof.
  split.
  - apply (@main_request_failed excerpt_tables
             (sample_world (Some (py "KEY"))
                (RequestException (py "Connection refused")))).
    + vm_compute. left. reflexivity.
    + reflexivity.
  - eapply (@main_request_failed excerpt_tables
              (sample_world (Some (py "KEY")) answer_not_json)).
    + vm_compute. left. reflexivity.
    + reflexivity.
    + reflexivity.
    + reflexivity.
Defined.

Lemma main_bad_date_witness :
  @main excerpt_tables
    {| args_nation := py "FR"; args_city := py "Paris";
       args_date := py "06-01-2024"; environ_api_key := None;
       requests_get := fun _ => answer_404 |}
  = ([Print (py "Error parsing date(s): time data '06-01-2024' does not match format '%Y-%m-%d'")],
     Exited 1).
Proof.
  apply (@main_bad_date excerpt_tables
           {| args_nation := py "FR"; args_city := py "Paris";
              args_date := py "06-01-2024"; environ_api_key := None;
              requests_get := fun _ => answer_404 |}).
  reflexivity.
Defined.

